(** * tvDashApi: a shallow embedding of the dashboard hub

    The development follows the layout of the repository:

    - [ModeManager]        src/utils/modeManager.js
    - [WeatherAggregator]  src/aggregators/weatherAggregator.js
    - [TodoAggregator]     src/aggregators/todoAggregator.js
    - [CalendarAggregator] src/aggregators/calendarAggregator.js,
                           [parseCalendarEvent] of src/clients/calendarClient.js
    - [Aggregators]        src/aggregators/index.js
    - [WsHandler]          src/wsHandler.js
    - [Scheduler]          src/scheduler.js
    - [Server]             src/server.js

    JavaScript objects whose set of fields matters (the weather reading) are
    finite maps from field names to values; the other records of the data
    model are Rocq records.  Module-level [let] variables become explicit
    state; [Date.now()], [Math.random()] and the outcome of upstream requests
    are inputs of the functions that consult them. *)

From Stdlib Require Import ZArith QArith Lia.
From stdpp Require Import base tactics option list sets gmap strings.
From stdpp Require Import pretty sorting.

Local Open Scope Z_scope.
Local Open Scope string_scope.
Local Open Scope list_scope.

(** ** JavaScript values *)

(** The primitive values that travel through the hub, and an opaque
    constructor for objects and arrays (compared by reference in JS, hence
    never equal to a string literal). Numbers are integers here: every number
    the modelled code inspects is a millisecond count, a rounded reading or a
    priority. *)
Inductive jsval : Type :=
  | JUndefined
  | JNull
  | JBool (b : bool)
  | JNum (n : Z)
  | JStr (s : string)
  | JObject.

#[global] Instance jsval_eq_dec : EqDecision jsval.
Proof. solve_decision. Defined.

(** JS truthiness, as used by [!x], [x || y] and [x ? a : b]. *)
Definition truthy (v : jsval) : bool :=
  match v with
  | JUndefined | JNull => false
  | JBool b => b
  | JNum n => negb (Z.eqb n 0)
  | JStr s => negb (String.eqb s "")
  | JObject => true
  end.

(** An object used as a bag of named fields. *)
Abbreviation jsobject := (gmap string jsval).

(** [o.k]: reading an absent field gives [undefined]. *)
Definition field (k : string) (o : jsobject) : jsval :=
  default JUndefined (o !! k).

(** Time stamps are milliseconds since the epoch ([Date.now()],
    [Date.prototype.getTime()]). *)
Abbreviation time := Z (only parsing).

(** ** src/utils/modeManager.js *)
Module ModeManager.

Record quote := { quote_text : string; quote_author : string }.

Definition GUEST_QUOTES : list quote :=
  [ {| quote_text := "The best time to plant a tree was 20 years ago. The second best time is now.";
       quote_author := "Chinese Proverb" |};
    {| quote_text := "Creativity is intelligence having fun.";
       quote_author := "Albert Einstein" |};
    {| quote_text := "The only way to do great work is to love what you do.";
       quote_author := "Steve Jobs" |};
    {| quote_text := "Art is not what you see, but what you make others see.";
       quote_author := "Edgar Degas" |};
    {| quote_text := "Every artist was first an amateur.";
       quote_author := "Ralph Waldo Emerson" |};
    {| quote_text := "Simplicity is the ultimate sophistication.";
       quote_author := "Leonardo da Vinci" |};
    {| quote_text := "Design is thinking made visual.";
       quote_author := "Saul Bass" |};
    {| quote_text := "The purpose of art is washing the dust of daily life off our souls.";
       quote_author := "Pablo Picasso" |};
    {| quote_text := "Color is my day-long obsession, joy and torment.";
       quote_author := "Claude Monet" |};
    {| quote_text := "Art enables us to find ourselves and lose ourselves at the same time.";
       quote_author := "Thomas Merton" |};
    {| quote_text := "To practice any art, no matter how well or badly, is a way to make your soul grow.";
       quote_author := "Kurt Vonnegut" |};
    {| quote_text := "Everything you can imagine is real.";
       quote_author := "Pablo Picasso" |} ].

(** [getRandomQuote]: [draw] is the value of
    [Math.floor(Math.random() * GUEST_QUOTES.length)]; [Math.random()] lies
    in [0, 1), so the index is reduced into the range of the pool. *)
Definition getRandomQuote (draw : nat) : quote :=
  let randomIndex := (draw mod length GUEST_QUOTES)%nat in
  nth randomIndex GUEST_QUOTES {| quote_text := ""; quote_author := "" |}.

(** The items of a snapshot. *)
Record eventInfo := {
  ne_title : string;
  ne_time : string;
  ne_minutesUntil : Z;
  ne_location : string;
  ne_startTime : time
}.

Record todo := {
  todo_text : string;
  todo_urgent : bool;
  todo_done : bool;
  todo_id : string;
  todo_dueDate : option time;       (* ISO rendering of an instant, or null *)
  todo_priority : Z;
  todo_labels : list string
}.

Record agendaItem := {
  ag_time : string;
  ag_title : string;
  ag_done : bool;
  ag_location : string;
  ag_isAllDay : bool
}.

Record localEvent := {
  ev_title : string;
  ev_type : string;
  ev_time : string;
  ev_venue : string
}.

Record assistantMessage := {
  llm_active : bool;
  llm_message : string;
  llm_urgency : string
}.

(** The full dashboard data ([fullData] of the main aggregator).  Every
    field that [createBriefingSummary] and [filterByMode] test for
    presence is nullable. *)
Record snapshot := {
  mode : string;
  weather : option jsobject;
  nextEvent : option eventInfo;
  todos : option (list todo);
  agenda : option (list agendaItem);
  localEvents : option (list localEvent);
  llmMessage : assistantMessage
}.

Record briefEvent := {
  be_title : string;
  be_time : string;
  be_minutesUntil : Z
}.

Record briefingSummary := {
  sum_weather : option jsobject;
  sum_nextEvent : option briefEvent;
  todoCount : nat;
  urgentTodoCount : nat;
  agendaCount : nat;
  upcomingAgenda : list agendaItem
}.

(** [{ temp: w.temp, condition: w.condition }] *)
Definition tempAndCondition (w : jsobject) : jsobject :=
  <["temp" := field "temp" w]> (<["condition" := field "condition" w]> ∅).

Definition createBriefingSummary (data : snapshot) : briefingSummary :=
  {| sum_weather := tempAndCondition <$> weather data;
     sum_nextEvent :=
       (fun e => {| be_title := ne_title e;
                    be_time := ne_time e;
                    be_minutesUntil := ne_minutesUntil e |}) <$> nextEvent data;
     todoCount :=
       match todos data with Some ts => length ts | None => 0%nat end;
     urgentTodoCount :=
       match todos data with
       | Some ts => length (List.filter (fun t => todo_urgent t) ts)
       | None => 0%nat
       end;
     agendaCount :=
       match agenda data with Some a => length a | None => 0%nat end;
     upcomingAgenda :=
       match agenda data with
       | Some a => take 3 (List.filter (fun item => negb (ag_done item)) a)
       | None => []
       end |}.

(** The shapes [filterByMode] returns: the snapshot itself, or one of four
    object literals whose [mode] field is a constant. *)
Inductive filtered : Type :=
  | FullView (data : snapshot)
  | GuestView (w : option jsobject) (evs : option (list localEvent)) (guestQuote : quote)
  | BriefingView (w : option jsobject) (summary : briefingSummary)
  | WeatherView (w : option jsobject) (evs : option (list localEvent))
  | ArtView (w : option jsobject) (evs : list localEvent) (guestQuote : quote).

Definition isArtOrMusic (e : localEvent) : bool :=
  String.eqb (ev_type e) "art" || String.eqb (ev_type e) "music".

(** [filterByMode]: the second component is what was written with
    [console.warn]. *)
Definition filterByMode (mode : string) (data : snapshot) (draw : nat)
  : filtered * list string :=
  if String.eqb mode "personal" then (FullView data, [])
  else if String.eqb mode "guest" then
    (GuestView (weather data) (localEvents data) (getRandomQuote draw), [])
  else if String.eqb mode "briefing" then
    (BriefingView (weather data) (createBriefingSummary data), [])
  else if String.eqb mode "weather" then
    (WeatherView (weather data) (localEvents data), [])
  else if String.eqb mode "art" then
    (ArtView (weather data)
             (match localEvents data with
              | Some evs => List.filter isArtOrMusic evs
              | None => []
              end)
             (getRandomQuote draw), [])
  else
    (FullView data,
     ["Unknown mode '" +:+ mode +:+ "', defaulting to personal"]).

Definition getAvailableModes : list string :=
  ["personal"; "guest"; "briefing"; "weather"; "art"].

(** [Array.prototype.includes] compares with SameValueZero: only a string
    can be found in an array of strings. *)
Definition includes (l : list string) (v : jsval) : bool :=
  match v with
  | JStr s => existsb (String.eqb s) l
  | _ => false
  end.

Definition isValidMode (mode : jsval) : bool :=
  includes getAvailableModes mode.

(** Field reads on a filtered result (absent fields read as [None]). *)
Definition out_mode (o : filtered) : string :=
  match o with
  | FullView d => mode d
  | GuestView _ _ _ => "guest"
  | BriefingView _ _ => "briefing"
  | WeatherView _ _ => "weather"
  | ArtView _ _ _ => "art"
  end.

Definition out_weather (o : filtered) : option jsobject :=
  match o with
  | FullView d => weather d
  | GuestView w _ _ | BriefingView w _ | WeatherView w _ | ArtView w _ _ => w
  end.

Definition out_nextEvent (o : filtered) : option eventInfo :=
  match o with FullView d => nextEvent d | _ => None end.

Definition out_todos (o : filtered) : option (list todo) :=
  match o with FullView d => todos d | _ => None end.

Definition out_agenda (o : filtered) : option (list agendaItem) :=
  match o with FullView d => agenda d | _ => None end.

Definition out_localEvents (o : filtered) : option (list localEvent) :=
  match o with
  | FullView d => localEvents d
  | GuestView _ evs _ | WeatherView _ evs => evs
  | BriefingView _ _ => None
  | ArtView _ evs _ => Some evs
  end.

Definition out_llmMessage (o : filtered) : option assistantMessage :=
  match o with FullView d => Some (llmMessage d) | _ => None end.

(** Every weather object reachable in a filtered result. *)
Definition weatherObjects (o : filtered) : list jsobject :=
  match o with
  | BriefingView w s => option_list w ++ option_list (sum_weather s)
  | _ => option_list (out_weather o)
  end.

End ModeManager.

(** ** src/aggregators/weatherAggregator.js *)
Module WeatherAggregator.

Definition CACHE_DURATION : Z := 10 * 60 * 1000.

(** [process.env] as [getWeather] reads it: the key is a string or
    undefined, the coordinates are the results of [parseFloat] ([None] is
    NaN). *)
Record environment := {
  WEATHER_API_KEY : option string;
  WEATHER_LAT : option Q;
  WEATHER_LON : option Q
}.

Definition truthyString (s : option string) : bool :=
  match s with Some s => negb (String.eqb s "") | None => false end.

Definition truthyNumber (x : option Q) : bool :=
  match x with Some q => negb (Qeq_bool q 0) | None => false end.

(** [!(!apiKey || !lat || !lon)] *)
Definition configured (env : environment) : bool :=
  truthyString (WEATHER_API_KEY env)
  && truthyNumber (WEATHER_LAT env)
  && truthyNumber (WEATHER_LON env).

(** What [await getCurrentWeather(lat, lon, apiKey)] followed by
    [parseWeatherResponse(rawData)] produces: the parsed reading together
    with the value of [Date.now()] once the await has resumed, or an
    exception. *)
Inductive upstream : Type :=
  | Fetched (parsedData : jsobject) (completed : time)
  | FetchFailed (message : string).

(** The two module-level variables. *)
Record cache := {
  cachedWeather : option jsobject;
  cacheTimestamp : option time
}.

Definition emptyCache : cache :=
  {| cachedWeather := None; cacheTimestamp := None |}.

(** "Format for dashboard": nine fields copied from the parsed reading. *)
Definition weatherData (parsedData : jsobject) : jsobject :=
  <["temp" := field "temp" parsedData]>
  (<["condition" := field "condition" parsedData]>
  (<["icon" := field "icon" parsedData]>
  (<["feelsLike" := field "feelsLike" parsedData]>
  (<["description" := field "description" parsedData]>
  (<["humidity" := field "humidity" parsedData]>
  (<["windSpeed" := field "windSpeed" parsedData]>
  (<["high" := field "high" parsedData]>
  (<["low" := field "low" parsedData]> ∅)))))))).

(** [cachedWeather && cacheTimestamp && (Date.now() - cacheTimestamp < CACHE_DURATION)] *)
Definition cacheValid (now : time) (c : cache) : bool :=
  match cachedWeather c, cacheTimestamp c with
  | Some _, Some ts => negb (Z.eqb ts 0) && Z.ltb (now - ts) CACHE_DURATION
  | _, _ => false
  end.

(** The result of one call: the value returned, the cache afterwards and
    the number of requests sent upstream. *)
Record result := {
  value : option jsobject;
  cacheAfter : cache;
  liveFetches : nat
}.

Definition getWeather (env : environment) (now : time) (up : upstream)
           (c : cache) : result :=
  if cacheValid now c then
    {| value := cachedWeather c; cacheAfter := c; liveFetches := 0 |}
  else if negb (configured env) then
    {| value := cachedWeather c; cacheAfter := c; liveFetches := 0 |}
  else
    match up with
    | Fetched parsedData completed =>
        let w := weatherData parsedData in
        {| value := Some w;
           cacheAfter := {| cachedWeather := Some w;
                            cacheTimestamp := Some completed |};
           liveFetches := 1 |}
    | FetchFailed _ =>
        {| value := cachedWeather c; cacheAfter := c; liveFetches := 1 |}
    end.

Definition clearCache (c : cache) : cache := emptyCache.

(** [getCacheStatus]: [isValid] is the value of the [&&] chain, which is
    [null] or [0] when an operand is falsy and a boolean otherwise. *)
Record cacheStatus := {
  hasCachedData : bool;
  cacheAge : option Z;
  isValid : jsval
}.

Definition getCacheStatus (now : time) (c : cache) : cacheStatus :=
  {| hasCachedData := bool_decide (is_Some (cachedWeather c));
     cacheAge := match cacheTimestamp c with
                 | Some ts => if Z.eqb ts 0 then None else Some (now - ts)
                 | None => None
                 end;
     isValid :=
       match cachedWeather c, cacheTimestamp c with
       | None, _ => JNull
       | Some _, None => JNull
       | Some _, Some ts =>
           if Z.eqb ts 0 then JNum 0
           else JBool (Z.ltb (now - ts) CACHE_DURATION)
       end |}.

(** A sequence of [getWeather] calls, each with its clock and the answer the
    upstream would give; the readings returned, oldest first. *)
Fixpoint getWeatherMany (env : environment) (calls : list (time * upstream))
         (c : cache) : list (option jsobject) * cache :=
  match calls with
  | [] => ([], c)
  | (now, up) :: rest =>
      let r := getWeather env now up c in
      let '(vs, c') := getWeatherMany env rest (cacheAfter r) in
      (value r :: vs, c')
  end.

End WeatherAggregator.

(** ** src/aggregators/todoAggregator.js *)
Module TodoAggregator.
Import ModeManager.

Definition URGENT_THRESHOLD_HOURS : Q := 2.

(** A JS [Date]: an instant, or the Invalid Date whose time value is NaN. *)
Inductive jsdate : Type :=
  | DateMs (ms : time)
  | InvalidDate.

(** The [due] object and the task that [parseTodoistTask] builds. *)
Record dueObject := {
  due_date : option string;
  due_datetime : option string
}.

Record task := {
  task_id : string;
  task_content : string;
  task_priority : Z;
  task_due : option dueObject;
  task_labels : list string;
  task_isCompleted : bool
}.

(** What [await getTasks(apiToken)] followed by
    [tasks.map(parseTodoistTask)] produces; [TasksOk None] is a null
    response body. *)
Inductive upstream : Type :=
  | TasksOk (tasks : option (list task))
  | TasksFailed (message : string).

Definition getMockTodos (now : time) : list todo :=
  let urgent := now + 60 * 60 * 1000 in
  let later := now + 4 * 60 * 60 * 1000 in
  [ {| todo_text := "Review PRs"; todo_urgent := true; todo_done := false;
       todo_id := "mock-1"; todo_dueDate := Some urgent;
       todo_priority := 4; todo_labels := ["work"] |};
    {| todo_text := "Update documentation"; todo_urgent := false; todo_done := false;
       todo_id := "mock-2"; todo_dueDate := Some later;
       todo_priority := 2; todo_labels := ["work"] |};
    {| todo_text := "Team sync"; todo_urgent := false; todo_done := false;
       todo_id := "mock-3"; todo_dueDate := Some later;
       todo_priority := 3; todo_labels := ["meeting"] |} ].

(** [isTaskUrgent]: a comparison with NaN is false.  The quotient is taken
    over the rationals; the double division of the source rounds
    monotonically and represents 2 exactly, so [<= 2] has the same truth
    value. *)
Definition isTaskUrgent (now : time) (dueDate : option jsdate) : bool :=
  match dueDate with
  | None => false
  | Some InvalidDate => false
  | Some (DateMs ms) =>
      let hoursUntilDue := (inject_Z (ms - now) / inject_Z (1000 * 60 * 60))%Q in
      Qle_bool hoursUntilDue URGENT_THRESHOLD_HOURS
  end.

(** The comparator handed to [todos.sort]. *)
Definition compareTodos (a b : todo) : Z :=
  match todo_dueDate a, todo_dueDate b with
  | Some _, None => -1
  | None, Some _ => 1
  | Some da, Some db =>
      let dateComparison := da - db in
      if negb (Z.eqb dateComparison 0) then dateComparison
      else todo_priority b - todo_priority a
  | None, None => todo_priority b - todo_priority a
  end.

(** [Array.prototype.sort] is stable: an element moves behind exactly the
    elements the comparator puts strictly before it. *)
Fixpoint insertSorted {A} (cmp : A -> A -> Z) (x : A) (l : list A) : list A :=
  match l with
  | [] => [x]
  | y :: l' => if Z.ltb 0 (cmp x y) then y :: insertSorted cmp x l' else x :: l
  end.

Definition sort {A} (cmp : A -> A -> Z) (l : list A) : list A :=
  foldr (insertSorted cmp) [] l.

Section WithDates.
(** [new Date(string)] and the local midnight
    [new Date(d.getFullYear(), d.getMonth(), d.getDate())] of an instant
    depend on the host's parser and time zone. *)
Variable parseDate : string -> jsdate.
Variable localMidnight : time -> time.

Definition parseDueDate (due : option dueObject) : option jsdate :=
  match due with
  | None => None
  | Some due =>
      if WeatherAggregator.truthyString (due_datetime due)
      then parseDate <$> due_datetime due
      else if WeatherAggregator.truthyString (due_date due)
      then parseDate <$> due_date due
      else None
  end.

Definition isDueTodayOrOverdue (now : time) (dueDate : option jsdate) : bool :=
  match dueDate with
  | None => false
  | Some InvalidDate => false
  | Some (DateMs ms) =>
      let today := localMidnight now in
      let taskDay := localMidnight ms in
      Z.leb taskDay today
  end.

(** One entry of "Format for dashboard"; [toISOString] throws a
    RangeError on the Invalid Date. *)
Definition formatTodo (now : time) (td : task * option jsdate) : option todo :=
  let '(t, dueDate) := td in
  dueIso ← match dueDate with
           | None => Some None
           | Some (DateMs ms) => Some (Some ms)
           | Some InvalidDate => None
           end;
  Some {| todo_text := task_content t;
          todo_urgent := isTaskUrgent now dueDate;
          todo_done := false;
          todo_id := task_id t;
          todo_dueDate := dueIso;
          todo_priority := task_priority t;
          todo_labels := task_labels t |}.

(** [getTodos]: [now] is the clock during the call. Anything thrown
    inside the [try] block lands in the [catch] branch. *)
Definition getTodos (apiToken : option string) (now : time) (up : upstream)
  : list todo :=
  if negb (WeatherAggregator.truthyString apiToken) then getMockTodos now
  else
    match up with
    | TasksFailed _ => getMockTodos now
    | TasksOk None => []
    | TasksOk (Some []) => []
    | TasksOk (Some parsedTasks) =>
        let relevantTasks :=
          List.filter (fun td => isDueTodayOrOverdue now (snd td))
            (List.map (fun t => (t, parseDueDate (task_due t)))
               (List.filter (fun t => negb (task_isCompleted t)) parsedTasks)) in
        match mapM (formatTodo now) relevantTasks with
        | Some todos => sort compareTodos todos
        | None => getMockTodos now
        end
    end.
End WithDates.

End TodoAggregator.

(** ** src/clients/calendarClient.js and src/aggregators/calendarAggregator.js *)
Module CalendarAggregator.
Import ModeManager.
Import TodoAggregator (jsdate, DateMs, InvalidDate).

(** The fields of a Google Calendar event that [parseCalendarEvent] reads.
    A missing field is [None]; [raw_start] and [raw_end] are objects. *)
Record eventTime := {
  dateTime : option string;
  date : option string
}.

Record rawEvent := {
  raw_summary : option string;
  raw_location : option string;
  raw_start : option eventTime;
  raw_end : option eventTime
}.

(** The fields of the parsed event that the aggregator reads. *)
Record parsedEvent := {
  pe_title : string;
  pe_location : string;
  pe_startTime : jsdate;
  pe_endTime : jsdate;
  pe_isAllDay : bool
}.

(** What [await getTodaysEvents(calendarId)] produces
    ([response.data.items || []], or an exception). *)
Inductive upstream : Type :=
  | EventsOk (events : list rawEvent)
  | EventsFailed (message : string).

Record calendarData := {
  cal_nextEvent : option eventInfo;
  cal_agenda : list agendaItem
}.

(** [String.prototype.padStart(2, '0')] *)
Definition padStart2 (s : string) : string :=
  match String.length s with
  | 0%nat => "00"
  | 1%nat => "0" +:+ s
  | _ => s
  end.

(** [isEventDone]: [new Date() > endTime]; false on the Invalid Date. *)
Definition isEventDone (now : time) (endTime : jsdate) : bool :=
  match endTime with
  | DateMs ms => Z.ltb ms now
  | InvalidDate => false
  end.

(** [getMinutesUntil]; [None] is NaN. *)
Definition getMinutesUntil (now : time) (d : jsdate) : option Z :=
  match d with
  | DateMs ms => Some ((ms - now) / 60000)
  | InvalidDate => None
  end.

Section WithHost.
(** [new Date(string)], [Date.prototype.getHours] and [getMinutes] depend on
    the host's parser and time zone. *)
Variable parseDate : string -> jsdate.
Variable getHours : time -> Z.
Variable getMinutes : time -> Z.

(** [new Date(t.dateTime || t.date)]; [new Date(undefined)] is invalid. *)
Definition dateOf (t : eventTime) : jsdate :=
  if WeatherAggregator.truthyString (dateTime t)
  then match dateTime t with Some s => parseDate s | None => InvalidDate end
  else match date t with Some s => parseDate s | None => InvalidDate end.

(** [parseCalendarEvent]; reading [event.start.dateTime] of an event
    without [start] (or [end]) raises a TypeError: [None]. *)
Definition parseCalendarEvent (event : rawEvent) : option parsedEvent :=
  start ← raw_start event;
  end_ ← raw_end event;
  Some {| pe_title := if WeatherAggregator.truthyString (raw_summary event)
                      then default "" (raw_summary event) else "(No title)";
          pe_location := if WeatherAggregator.truthyString (raw_location event)
                         then default "" (raw_location event) else "";
          pe_startTime := dateOf start;
          pe_endTime := dateOf end_;
          pe_isAllDay := negb (WeatherAggregator.truthyString (dateTime start)) |}.

(** [formatTime] on hours and minutes. *)
Definition formatClock (hours minutes : Z) : string :=
  let ampm := if Z.leb 12 hours then "PM" else "AM" in
  let displayHours := if Z.eqb (Z.rem hours 12) 0 then 12 else Z.rem hours 12 in
  let displayMinutes := padStart2 (pretty minutes) in
  pretty displayHours +:+ ":" +:+ displayMinutes +:+ " " +:+ ampm.

(** [formatTime]; on the Invalid Date every getter returns NaN, which is
    falsy, compares false and prints as "NaN". *)
Definition formatTime (d : jsdate) : string :=
  match d with
  | DateMs ms => formatClock (getHours ms) (getMinutes ms)
  | InvalidDate => "12:NaN AM"
  end.

(** [event.startTime > now] *)
Definition startsAfter (now : time) (e : parsedEvent) : bool :=
  match pe_startTime e with
  | DateMs ms => Z.ltb now ms
  | InvalidDate => false
  end.

(** One entry of the agenda; [clock] is the [new Date()] that [isEventDone]
    reads for this entry. *)
Definition agendaEntry (clock : time) (e : parsedEvent) : agendaItem :=
  {| ag_time := if pe_isAllDay e then "All Day" else formatTime (pe_startTime e);
     ag_title := pe_title e;
     ag_done := isEventDone clock (pe_endTime e);
     ag_location := pe_location e;
     ag_isAllDay := pe_isAllDay e |}.

Definition noCalendarData : calendarData :=
  {| cal_nextEvent := None; cal_agenda := [] |}.

(** [getCalendarData] reads the clock several times: [now] is the
    [new Date()] of the function body, against which the upcoming events are
    selected; [nowMinutes] is the one [getMinutesUntil] reads afterwards;
    [nowDone i] is the one [isEventDone] reads for the [i]-th event of the
    agenda.  Anything thrown inside the [try] block, a TypeError of
    [parseCalendarEvent] or the RangeError of [toISOString] on an Invalid
    Date, ends in the [catch] branch. *)
Definition getCalendarData (GOOGLE_CALENDAR_ID : option string)
           (now nowMinutes : time) (nowDone : nat -> time)
           (up : upstream) : calendarData :=
  if negb (WeatherAggregator.truthyString GOOGLE_CALENDAR_ID) then noCalendarData
  else
    match up with
    | EventsFailed _ => noCalendarData
    | EventsOk [] => noCalendarData
    | EventsOk events =>
        match mapM parseCalendarEvent events with
        | None => noCalendarData
        | Some parsedEvents =>
            let upcomingEvents := List.filter (startsAfter now) parsedEvents in
            let agenda := imap (fun i event => agendaEntry (nowDone i) event)
                               parsedEvents in
            match head upcomingEvents with
            | None => {| cal_nextEvent := None; cal_agenda := agenda |}
            | Some nextEvent =>
                match getMinutesUntil nowMinutes (pe_startTime nextEvent),
                      pe_startTime nextEvent with
                | Some minutesUntil, DateMs ms =>
                    {| cal_nextEvent :=
                         Some {| ne_title := pe_title nextEvent;
                                 ne_time := formatTime (pe_startTime nextEvent);
                                 ne_minutesUntil := minutesUntil;
                                 ne_location := pe_location nextEvent;
                                 ne_startTime := ms |};
                       cal_agenda := agenda |}
                | _, _ => noCalendarData (* [toISOString] of the Invalid Date *)
                end
            end
        end
    end.

Definition getNextEvent (GOOGLE_CALENDAR_ID : option string)
           (now nowMinutes : time) (nowDone : nat -> time)
           (up : upstream) : option eventInfo :=
  cal_nextEvent (getCalendarData GOOGLE_CALENDAR_ID now nowMinutes nowDone up).

Definition getAgenda (GOOGLE_CALENDAR_ID : option string)
           (now nowMinutes : time) (nowDone : nat -> time)
           (up : upstream) : list agendaItem :=
  cal_agenda (getCalendarData GOOGLE_CALENDAR_ID now nowMinutes nowDone up).

End WithHost.

End CalendarAggregator.

(** ** src/aggregators/index.js *)
Module Aggregators.
Import ModeManager.

(** Everything one aggregation reads from outside the process: the
    configuration, the clock, the random draw and the answers of the
    upstream services.  The calendar aggregator is represented by what its
    two entry points return. *)
Record sources := {
  env : WeatherAggregator.environment;
  TODOIST_API_TOKEN : option string;
  now : time;
  draw : nat;
  parseDate : string -> TodoAggregator.jsdate;
  localMidnight : time -> time;
  weatherUpstream : WeatherAggregator.upstream;
  todoUpstream : TodoAggregator.upstream;
  calendarNextEvent : option eventInfo;
  calendarAgenda : list agendaItem
}.

(** The static reading used when [getWeather] returns null. *)
Definition fallbackWeather : jsobject :=
  <["temp" := JNum 72]>
  (<["condition" := JStr "Partly Cloudy"]>
  (<["icon" := JStr "02d"]>
  (<["high" := JNum 78]>
  (<["low" := JNum 65]>
  (<["humidity" := JNum 55]>
  (<["windSpeed" := JNum 8]> ∅)))))).

Definition getWeatherData (src : sources) (c : WeatherAggregator.cache)
  : jsobject * WeatherAggregator.result :=
  let r := WeatherAggregator.getWeather (env src) (now src) (weatherUpstream src) c in
  match WeatherAggregator.value r with
  | Some w => (w, r)
  | None => (fallbackWeather, r)
  end.

Definition getNextEvent (src : sources) : option eventInfo := calendarNextEvent src.

Definition getTodos (src : sources) : list todo :=
  TodoAggregator.getTodos (parseDate src) (localMidnight src)
    (TODOIST_API_TOKEN src) (now src) (todoUpstream src).

Definition getAgenda (src : sources) : list agendaItem := calendarAgenda src.

Definition getLocalEvents : list localEvent :=
  [ {| ev_title := "Jazz Night"; ev_type := "music";
       ev_time := "7:00 PM"; ev_venue := "Blue Note" |};
    {| ev_title := "Art Gallery Opening"; ev_type := "art";
       ev_time := "6:00 PM"; ev_venue := "Modern Art Museum" |} ].

Definition getLLMMessage : assistantMessage :=
  {| llm_active := false; llm_message := ""; llm_urgency := "none" |}.

Definition fullData (src : sources) (mode : string) (c : WeatherAggregator.cache)
  : snapshot :=
  {| mode := mode;
     weather := Some (getWeatherData src c).1;
     nextEvent := getNextEvent src;
     todos := Some (getTodos src);
     agenda := Some (getAgenda src);
     localEvents := Some getLocalEvents;
     llmMessage := getLLMMessage |}.

(** The outcome of [getDashboardData]: the filtered data, the warnings
    written on the way and the weather cache afterwards.  None of the
    sources above raises, so the rethrowing [catch] is never entered. *)
Record aggregated := {
  filteredData : filtered;
  warnings : list string;
  weatherCache : WeatherAggregator.cache
}.

Definition getDashboardData (src : sources) (mode : string)
           (c : WeatherAggregator.cache) : aggregated :=
  let out := filterByMode mode (fullData src mode c) (draw src) in
  {| filteredData := out.1;
     warnings := out.2;
     weatherCache := WeatherAggregator.cacheAfter (getWeatherData src c).2 |}.

End Aggregators.

(** ** src/wsHandler.js *)
Module WsHandler.
Import ModeManager.

Definition PING_INTERVAL : Z := 30000.

(** A socket object is named by a number (its identity); the set holds
    references.  The two properties the handler writes on a socket: *)
Record socketProps := { clientId : string; isAlive : bool }.

Record handler := {
  clients : gset nat;
  props : gmap nat socketProps;
  pingInterval : bool
}.

(** [new WebSocketHandler()] *)
Definition constructor : handler :=
  {| clients := ∅; props := ∅; pingInterval := false |}.

(** The [data] member of the envelopes the server emits. *)
Record updateData := {
  upd_mode : string;
  upd_weather : option jsobject;
  upd_nextEvent : option eventInfo;
  upd_todos : option (list todo);
  upd_agenda : option (list agendaItem);
  upd_localEvents : option (list localEvent);
  upd_llmMessage : option assistantMessage
}.

Inductive payloadData : Type :=
  | ConnectionData (message clientId : string)
  | DashboardData (d : updateData)
  | ErrorData (message : string) (error : option string).

Record envelope := {
  event : string;
  data : payloadData;
  timestamp : time
}.

(** What leaves the process: one [broadcast] call with the sockets it
    wrote to, or a single [sendToSocket]. *)
Inductive effect : Type :=
  | Broadcast (m : envelope) (recipients : list nat)
  | Unicast (to : nat) (m : envelope).

Definition OPEN : nat := 1.

(** [sendToSocket]; [readyState] is the transport's view of each socket. *)
Definition sendToSocket (readyState : nat -> nat) (clock : time)
           (ws : nat) (ev : string) (d : payloadData) : list effect :=
  if Nat.eqb (readyState ws) OPEN
  then [Unicast ws {| event := ev; data := d; timestamp := clock |}]
  else [].

(** The [connection] callback registered by [initialize]; [newId] is the
    result of [generateClientId()]. *)
Definition onConnection (readyState : nat -> nat) (clock : time)
           (ws : nat) (newId : string) (h : handler) : handler * list effect :=
  ({| clients := clients h ∪ {[ws]};
      props := <[ws := {| clientId := newId; isAlive := true |}]> (props h);
      pingInterval := pingInterval h |},
   sendToSocket readyState clock ws "connection"
     (ConnectionData "Connected to Living Art BFF" newId)).

(** The [pong] callback. *)
Definition onPong (ws : nat) (h : handler) : handler :=
  {| clients := clients h;
     props := alter (fun p => {| clientId := clientId p; isAlive := true |}) ws (props h);
     pingInterval := pingInterval h |}.

(** The [close] callback. *)
Definition onClose (ws : nat) (h : handler) : handler :=
  {| clients := clients h ∖ {[ws]};
     props := props h;
     pingInterval := pingInterval h |}.

(** The [error] callback. *)
Definition onError (ws : nat) (h : handler) : handler :=
  {| clients := clients h ∖ {[ws]};
     props := props h;
     pingInterval := pingInterval h |}.

Definition alive (h : handler) (ws : nat) : bool :=
  match props h !! ws with Some p => isAlive p | None => false end.

(** One firing of the health-check interval: the sockets that did not
    answer the previous ping leave the set, the others are marked and
    pinged. *)
Definition healthCheck (h : handler) : handler :=
  {| clients := filter (fun ws => alive h ws = true) (clients h);
     props :=
       set_fold (fun ws m =>
                   if alive h ws
                   then alter (fun p => {| clientId := clientId p; isAlive := false |}) ws m
                   else m)
                (props h) (clients h);
     pingInterval := pingInterval h |}.

(** [broadcast]: one message, written to every socket of the set whose
    [readyState] is OPEN. *)
Definition broadcast (readyState : nat -> nat) (clock : time)
           (ev : string) (d : payloadData) (h : handler) : list effect :=
  [Broadcast {| event := ev; data := d; timestamp := clock |}
     (List.filter (fun client => Nat.eqb (readyState client) OPEN)
        (elements (clients h)))].

Definition sendDashboardUpdate (readyState : nat -> nat) (clock : time)
           (dashboardData : filtered) (h : handler) : list effect :=
  broadcast readyState clock "dashboard:update"
    (DashboardData
       {| upd_mode := out_mode dashboardData;
          upd_weather := out_weather dashboardData;
          upd_nextEvent := out_nextEvent dashboardData;
          upd_todos := out_todos dashboardData;
          upd_agenda := out_agenda dashboardData;
          upd_localEvents := out_localEvents dashboardData;
          upd_llmMessage := out_llmMessage dashboardData |}) h.

Definition getActiveConnectionCount (h : handler) : nat := size (clients h).

(** [stopHealthCheck] *)
Definition stopHealthCheck (h : handler) : handler :=
  {| clients := clients h; props := props h; pingInterval := false |}.

(** [client.clientId === clientId]; a socket without the property reads
    [undefined]. *)
Definition hasClientId (h : handler) (id : string) (client : nat) : bool :=
  match props h !! client with
  | Some p => String.eqb (clientId p) id
  | None => false
  end.

(** [sendToClient]: the first socket of the set that bears the id and is
    OPEN gets the message.  The Set is walked in the order of [elements]. *)
Definition sendToClient (readyState : nat -> nat) (clock : time)
           (id : string) (ev : string) (d : payloadData) (h : handler)
  : bool * list effect :=
  match List.find (fun client => hasClientId h id client
                                 && Nat.eqb (readyState client) OPEN)
                  (elements (clients h)) with
  | Some client => (true, sendToSocket readyState clock client ev d)
  | None => (false, [])
  end.

(** [getClientIds]; [None] stands for [undefined]. *)
Definition getClientIds (h : handler) : list (option string) :=
  List.map (fun client => clientId <$> props h !! client) (elements (clients h)).

Definition shutdown (h : handler) : handler :=
  {| clients := ∅; props := props h; pingInterval := false |}.

End WsHandler.

(** ** The state of the process *)

(** The module-level variables of the scheduler, the singleton handler and
    the weather cache. *)
Record scheduler := {
  scheduledTask : bool;
  currentMode : string
}.

Record process := {
  sched : scheduler;
  wsHandler : WsHandler.handler;
  weatherState : WeatherAggregator.cache
}.

Definition boot : process :=
  {| sched := {| scheduledTask := false; currentMode := "personal" |};
     wsHandler := WsHandler.constructor;
     weatherState := WeatherAggregator.emptyCache |}.

(** ** src/scheduler.js *)
Module Scheduler.

(** [refreshDashboardData], run to completion: aggregate for the current
    mode, then broadcast.  Every source of [getDashboardData] catches its own
    failures, so nothing is thrown inside the [try] and the [catch] branch
    with its [error] broadcast is not entered. *)
Definition refreshDashboardData (src : Aggregators.sources)
           (readyState : nat -> nat) (p : process) : process * list WsHandler.effect :=
  let dashboardData :=
    Aggregators.getDashboardData src (currentMode (sched p)) (weatherState p) in
  ({| sched := sched p;
      wsHandler := wsHandler p;
      weatherState := Aggregators.weatherCache dashboardData |},
   WsHandler.sendDashboardUpdate readyState (Aggregators.now src)
     (Aggregators.filteredData dashboardData) (wsHandler p)).

Definition startScheduler (src : Aggregators.sources)
           (readyState : nat -> nat) (p : process) : process * list WsHandler.effect :=
  refreshDashboardData src readyState
    {| sched := {| scheduledTask := true; currentMode := currentMode (sched p) |};
       wsHandler := wsHandler p;
       weatherState := weatherState p |}.

Definition stopScheduler (p : process) : process :=
  {| sched := {| scheduledTask := false; currentMode := currentMode (sched p) |};
     wsHandler := wsHandler p;
     weatherState := weatherState p |}.

(** [setMode]: assigns without looking at the value, then refreshes. *)
Definition setMode (mode : string) (src : Aggregators.sources)
           (readyState : nat -> nat) (p : process) : process * list WsHandler.effect :=
  refreshDashboardData src readyState
    {| sched := {| scheduledTask := scheduledTask (sched p); currentMode := mode |};
       wsHandler := wsHandler p;
       weatherState := weatherState p |}.

Definition getMode (p : process) : string := currentMode (sched p).

Definition triggerRefresh := refreshDashboardData.

(** [REFRESH_INTERVAL]: [parsed] is [parseInt(process.env.REFRESH_INTERVAL)],
    [None] for NaN. *)
Definition REFRESH_INTERVAL (parsed : option Z) : Z :=
  match parsed with
  | Some n => if Z.eqb n 0 then 30 else n
  | None => 30
  end.

(** [Number.MAX_SAFE_INTEGER]: up to it a JavaScript number holds every
    integer exactly. *)
Definition MAX_SAFE_INTEGER : Z := 2 ^ 53 - 1.

Definition isSafeInteger (n : Z) : bool :=
  Z.leb (- MAX_SAFE_INTEGER) n && Z.leb n MAX_SAFE_INTEGER.

(** [getCronExpression] on a safe integer, where the division and
    [Math.floor] on doubles agree with the integer quotient and the template
    string prints the plain decimal digits.  Outside that range the source
    rounds the quotient and prints large numbers with an exponent; this is
    not represented: [None]. *)
Definition getCronExpression (seconds : Z) : option string :=
  if isSafeInteger seconds then
    if Z.ltb seconds 60 then Some ("*/" +:+ pretty seconds +:+ " * * * * *")
    else
      let minutes := seconds / 60 in
      Some ("*/" +:+ pretty minutes +:+ " * * * *")
  else None.

End Scheduler.

(** ** src/server.js *)
Module Server.
Import ModeManager.

(** The JSON bodies the two dashboard routes answer with. *)
Inductive response : Type :=
  | MissingMode                      (* 400, error: 'Missing mode' *)
  | InvalidMode (mode : jsval)       (* 400, error: 'Invalid mode', validModes *)
  | DataOk (data : filtered)         (* 200, success: true, data *)
  | ModeOk (mode : string).          (* 200, success: true, mode *)

Definition status (r : response) : nat :=
  match r with
  | MissingMode | InvalidMode _ => 400
  | DataOk _ | ModeOk _ => 200
  end.

Definition errorName (r : response) : option string :=
  match r with
  | MissingMode => Some "Missing mode"
  | InvalidMode _ => Some "Invalid mode"
  | DataOk _ | ModeOk _ => None
  end.

(** GET /api/dashboard/data; [queryMode] is [req.query.mode]. *)
Definition getData (queryMode : jsval) (src : Aggregators.sources)
           (p : process) : response * process :=
  let mode := if truthy queryMode then queryMode else JStr "personal" in
  if negb (isValidMode mode) then (InvalidMode mode, p)
  else
    match mode with
    | JStr m =>
        let data := Aggregators.getDashboardData src m (weatherState p) in
        (DataOk (Aggregators.filteredData data),
         {| sched := sched p;
            wsHandler := wsHandler p;
            weatherState := Aggregators.weatherCache data |})
    | _ => (InvalidMode mode, p)     (* a valid mode is a string *)
    end.

(** POST /api/dashboard/mode; [bodyMode] is [req.body.mode].  The refresh
    started by [setMode] reads [srcScheduler], the route's own aggregation
    reads [srcRoute]; both end in a broadcast.  [setMode] does not await its
    refresh: the two aggregations overlap in time and the order of the two
    broadcasts depends on the upstream latencies.  They are run here one
    after the other; the number of broadcasts and the resulting mode do not
    depend on the order. *)
Definition postMode (bodyMode : jsval)
           (srcScheduler srcRoute : Aggregators.sources)
           (readyState : nat -> nat) (p : process)
  : response * process * list WsHandler.effect :=
  if negb (truthy bodyMode) then (MissingMode, p, [])
  else if negb (isValidMode bodyMode) then (InvalidMode bodyMode, p, [])
  else
    match bodyMode with
    | JStr m =>
        let '(p1, sent1) := Scheduler.setMode m srcScheduler readyState p in
        let data := Aggregators.getDashboardData srcRoute m (weatherState p1) in
        let sent2 :=
          WsHandler.sendDashboardUpdate readyState (Aggregators.now srcRoute)
            (Aggregators.filteredData data) (wsHandler p1) in
        (ModeOk m,
         {| sched := sched p1;
            wsHandler := wsHandler p1;
            weatherState := Aggregators.weatherCache data |},
         sent1 ++ sent2)
    | _ => (InvalidMode bodyMode, p, [])   (* a valid mode is a string *)
    end.

(** GET /api/dashboard/refresh; [queryMode] is [req.query.mode], absent or
    a string (a repeated parameter, which Express turns into an array, is
    not represented).  The scheduler's refresh is awaited before the route
    aggregates for its own answer. *)
Definition getRefresh (queryMode : option string)
           (srcScheduler srcRoute : Aggregators.sources)
           (readyState : nat -> nat) (p : process)
  : response * process * list WsHandler.effect :=
  let mode := if WeatherAggregator.truthyString queryMode
              then default "" queryMode
              else Scheduler.getMode p in
  let '(p1, sent) := Scheduler.triggerRefresh srcScheduler readyState p in
  let data := Aggregators.getDashboardData srcRoute mode (weatherState p1) in
  (DataOk (Aggregators.filteredData data),
   {| sched := sched p1;
      wsHandler := wsHandler p1;
      weatherState := Aggregators.weatherCache data |},
   sent).

End Server.

(** ** Concrete inputs *)
Module Samples.
Import ModeManager.

Definition standup : agendaItem :=
  {| ag_time := "9:00 AM"; ag_title := "Standup"; ag_done := true;
     ag_location := ""; ag_isAllDay := false |}.

Definition review : agendaItem :=
  {| ag_time := "2:00 PM"; ag_title := "Design review"; ag_done := false;
     ag_location := "Office"; ag_isAllDay := false |}.

(** A snapshot as the main aggregator builds it when the weather service
    is not reachable and nothing is cached. *)
Definition snapshotWithFallbackWeather : snapshot :=
  {| mode := "briefing";
     weather := Some Aggregators.fallbackWeather;
     nextEvent := None;
     todos := Some (TodoAggregator.getMockTodos 0);
     agenda := Some [standup; review];
     localEvents := Some Aggregators.getLocalEvents;
     llmMessage := Aggregators.getLLMMessage |}.

Definition chicago : WeatherAggregator.environment :=
  {| WeatherAggregator.WEATHER_API_KEY := Some "k";
     WeatherAggregator.WEATHER_LAT := Some (4188 # 100);
     WeatherAggregator.WEATHER_LON := Some (- 8763 # 100) |}.

Definition reading (t : Z) : jsobject :=
  <["temp" := JNum t]> (<["condition" := JStr "Clear"]> (<["location" := JStr "Chicago"]> ∅)).

Definition marathon : localEvent :=
  {| ev_title := "City Marathon"; ev_type := "sports";
     ev_time := "8:00 AM"; ev_venue := "Lakefront" |}.

(** The aggregator's two events with a sports event between them. *)
Definition snapshotWithSports : snapshot :=
  {| mode := "art";
     weather := None;
     nextEvent := None;
     todos := None;
     agenda := None;
     localEvents :=
       Some (match Aggregators.getLocalEvents with
             | jazz :: rest => jazz :: marathon :: rest
             | [] => [marathon]
             end);
     llmMessage := Aggregators.getLLMMessage |}.

(** Noon UTC on 2 October 2025, a host in UTC and a parser that knows the
    three due strings used below. *)
Definition noon : Z := 1759406400000.

Definition utcMidnight (t : Z) : Z := t - t mod 86400000.

Definition parseKnown (s : string) : TodoAggregator.jsdate :=
  if String.eqb s "2025-10-01" then TodoAggregator.DateMs (noon - 36 * 3600000)
  else if String.eqb s "2025-10-02T13:00:00Z" then TodoAggregator.DateMs (noon + 3600000)
  else if String.eqb s "2025-10-02T17:00:00Z" then TodoAggregator.DateMs (noon + 5 * 3600000)
  else TodoAggregator.InvalidDate.

Definition dueAt (s : string) : option TodoAggregator.dueObject :=
  Some {| TodoAggregator.due_date := Some "2025-10-02";
          TodoAggregator.due_datetime := Some s |}.

Definition dueOn (s : string) : option TodoAggregator.dueObject :=
  Some {| TodoAggregator.due_date := Some s;
          TodoAggregator.due_datetime := None |}.

Definition mkTask (id content : string) (priority : Z)
           (due : option TodoAggregator.dueObject) (completed : bool)
  : TodoAggregator.task :=
  {| TodoAggregator.task_id := id;
     TodoAggregator.task_content := content;
     TodoAggregator.task_priority := priority;
     TodoAggregator.task_due := due;
     TodoAggregator.task_labels := [];
     TodoAggregator.task_isCompleted := completed |}.

(** A Todoist answer: due in five hours, due in one hour, overdue since
    yesterday, already completed, without a due date. *)
Definition inbox : list TodoAggregator.task :=
  [ mkTask "1" "Write report" 1 (dueAt "2025-10-02T17:00:00Z") false;
    mkTask "2" "Call plumber" 2 (dueAt "2025-10-02T13:00:00Z") false;
    mkTask "3" "Pay rent" 4 (dueOn "2025-10-01") false;
    mkTask "4" "Book flight" 3 (dueAt "2025-10-02T13:00:00Z") true;
    mkTask "5" "Read novel" 1 None false ].

Definition inboxTodos : list todo :=
  TodoAggregator.getTodos parseKnown utcMidnight (Some "token") noon
    (TodoAggregator.TasksOk (Some inbox)).

(** A host in UTC and a parser for the calendar strings used below. *)
Definition utcHours (t : Z) : Z := (t / 3600000) mod 24.

Definition utcMinutes (t : Z) : Z := (t / 60000) mod 60.

Definition parseCalendarString (s : string) : TodoAggregator.jsdate :=
  if String.eqb s "2025-10-02T09:00:00Z" then TodoAggregator.DateMs (noon - 3 * 3600000)
  else if String.eqb s "2025-10-02T09:30:00Z" then TodoAggregator.DateMs (noon - 9000000)
  else if String.eqb s "2025-10-02T14:00:00Z" then TodoAggregator.DateMs (noon + 2 * 3600000)
  else if String.eqb s "2025-10-02T15:00:00Z" then TodoAggregator.DateMs (noon + 3 * 3600000)
  else if String.eqb s "2025-10-02" then TodoAggregator.DateMs (noon - 12 * 3600000)
  else if String.eqb s "2025-10-03" then TodoAggregator.DateMs (noon + 12 * 3600000)
  else TodoAggregator.InvalidDate.

Definition timed (summary startAt endAt : string) : CalendarAggregator.rawEvent :=
  {| CalendarAggregator.raw_summary := Some summary;
     CalendarAggregator.raw_location := None;
     CalendarAggregator.raw_start :=
       Some {| CalendarAggregator.dateTime := Some startAt;
               CalendarAggregator.date := None |};
     CalendarAggregator.raw_end :=
       Some {| CalendarAggregator.dateTime := Some endAt;
               CalendarAggregator.date := None |} |}.

(** An untitled all-day event. *)
Definition allDay (startOn endOn : string) : CalendarAggregator.rawEvent :=
  {| CalendarAggregator.raw_summary := None;
     CalendarAggregator.raw_location := None;
     CalendarAggregator.raw_start :=
       Some {| CalendarAggregator.dateTime := None;
               CalendarAggregator.date := Some startOn |};
     CalendarAggregator.raw_end :=
       Some {| CalendarAggregator.dateTime := None;
               CalendarAggregator.date := Some endOn |} |}.

(** An event without [start], as a cancelled instance can be. *)
Definition broken : CalendarAggregator.rawEvent :=
  {| CalendarAggregator.raw_summary := Some "Cancelled";
     CalendarAggregator.raw_location := None;
     CalendarAggregator.raw_start := None;
     CalendarAggregator.raw_end := None |}.

Definition today : list CalendarAggregator.rawEvent :=
  [ timed "Standup" "2025-10-02T09:00:00Z" "2025-10-02T09:30:00Z";
    timed "Design review" "2025-10-02T14:00:00Z" "2025-10-02T15:00:00Z";
    allDay "2025-10-02" "2025-10-03" ].

(** A call during which the clock reads [clock] every time. *)
Definition calendarAt (clock : Z) (events : list CalendarAggregator.rawEvent)
  : CalendarAggregator.calendarData :=
  CalendarAggregator.getCalendarData parseCalendarString utcHours utcMinutes
    (Some "primary") clock clock (fun _ => clock)
    (CalendarAggregator.EventsOk events).

(** A call during which the clock advances by [tick] milliseconds from one
    reading to the next: the selection reads [clock], [getMinutesUntil]
    reads one tick later, and the agenda entries after that. *)
Definition calendarTicking (clock tick : Z)
           (events : list CalendarAggregator.rawEvent)
  : CalendarAggregator.calendarData :=
  CalendarAggregator.getCalendarData parseCalendarString utcHours utcMinutes
    (Some "primary") clock (clock + tick)
    (fun i => clock + tick * (2 + Z.of_nat i))
    (CalendarAggregator.EventsOk events).

(** A configuration whose latitude is 0 (a place on the equator). *)
Definition quito : WeatherAggregator.environment :=
  {| WeatherAggregator.WEATHER_API_KEY := Some "k";
     WeatherAggregator.WEATHER_LAT := Some 0%Q;
     WeatherAggregator.WEATHER_LON := Some (- 7847 # 100) |}.

(** Sources whose upstream services all fail. *)
Definition outage (clock : Z) : Aggregators.sources :=
  {| Aggregators.env := chicago;
     Aggregators.TODOIST_API_TOKEN := Some "token";
     Aggregators.now := clock;
     Aggregators.draw := 1;
     Aggregators.parseDate := fun _ => TodoAggregator.InvalidDate;
     Aggregators.localMidnight := utcMidnight;
     Aggregators.weatherUpstream := WeatherAggregator.FetchFailed "timeout";
     Aggregators.todoUpstream := TodoAggregator.TasksFailed "timeout";
     Aggregators.calendarNextEvent := None;
     Aggregators.calendarAgenda := [] |}.

(** A process with two registered sockets. *)
Definition twoClients : process :=
  {| sched := {| scheduledTask := true; currentMode := "personal" |};
     wsHandler :=
       {| WsHandler.clients := {[ 1%nat; 2%nat ]};
          WsHandler.props :=
            <[1%nat := {| WsHandler.clientId := "client_a"; WsHandler.isAlive := true |}]>
            (<[2%nat := {| WsHandler.clientId := "client_b"; WsHandler.isAlive := true |}]> ∅);
          WsHandler.pingInterval := true |};
     weatherState := WeatherAggregator.emptyCache |}.

Definition allOpen : nat -> nat := fun _ => WsHandler.OPEN.

End Samples.

(** ** Vocabulary of the statements *)

(** The urgency threshold in milliseconds. *)
Definition twoHours : Z := 2 * 60 * 60 * 1000.

(** How many [broadcast] calls carried the event [ev]. *)
Definition broadcasts (ev : string) (sent : list WsHandler.effect) : nat :=
  length (List.filter
            (fun e => match e with
                      | WsHandler.Broadcast m _ => String.eqb (WsHandler.event m) ev
                      | WsHandler.Unicast _ _ => false
                      end) sent).

(** How many messages with the event [ev] were written to the socket [ws]. *)
Definition received (ws : nat) (ev : string) (sent : list WsHandler.effect) : nat :=
  length (List.filter
            (fun e => match e with
                      | WsHandler.Broadcast m recipients =>
                          String.eqb (WsHandler.event m) ev
                          && existsb (Nat.eqb ws) recipients
                      | WsHandler.Unicast to m =>
                          String.eqb (WsHandler.event m) ev && Nat.eqb to ws
                      end) sent).

(** The registered sockets a broadcast writes to. *)
Definition openClients (readyState : nat -> nat) (h : WsHandler.handler) : list nat :=
  List.filter (fun client => Nat.eqb (readyState client) WsHandler.OPEN)
    (elements (WsHandler.clients h)).

(** The nine fields of a cached weather reading. *)
Definition weatherFields : list string :=
  ["temp"; "condition"; "icon"; "feelsLike"; "description";
   "humidity"; "windSpeed"; "high"; "low"].

(** The order [getTodos] emits its entries in: earlier due instant first,
    higher priority first among equal instants. *)
Definition dueOrder (a b : ModeManager.todo) : Prop :=
  exists da db,
    ModeManager.todo_dueDate a = Some da /\ ModeManager.todo_dueDate b = Some db
    /\ (da < db \/ (da = db /\ ModeManager.todo_priority b <= ModeManager.todo_priority a)).

(** The tasks [getTodos] keeps: not completed, with a due date that parses
    and whose local day is not after today's. *)
Definition relevantTasks (parseDate : string -> TodoAggregator.jsdate)
           (localMidnight : Z -> Z) (now : Z) (tasks : list TodoAggregator.task)
  : list (TodoAggregator.task * option TodoAggregator.jsdate) :=
  List.filter (fun td => TodoAggregator.isDueTodayOrOverdue localMidnight now (snd td))
    (List.map (fun t => (t, TodoAggregator.parseDueDate parseDate (TodoAggregator.task_due t)))
       (List.filter (fun t => negb (TodoAggregator.task_isCompleted t)) tasks)).

(** Every time of day, as (hours, minutes). *)
Definition timesOfDay : list (Z * Z) := cprod (seqZ 0 24) (seqZ 0 60).

(** The [mode] fields of the dashboard updates broadcast, oldest first. *)
Definition updateModes (sent : list WsHandler.effect) : list string :=
  flat_map (fun e => match e with
                     | WsHandler.Broadcast m _ =>
                         match WsHandler.data m with
                         | WsHandler.DashboardData d => [WsHandler.upd_mode d]
                         | _ => []
                         end
                     | WsHandler.Unicast _ _ => []
                     end) sent.

(** * Properties *)

(** ** Array helpers *)
Section ArrayFacts.
Context {A : Type}.
Implicit Types (f : A -> bool) (l : list A).

Lemma filter_keeps_order f l : List.filter f l `sublist_of` l.
Proof.
  induction l as [|x l IH]; simpl; [constructor|].
  destruct (f x); [by apply sublist_skip | by apply sublist_cons].
Qed.

Lemma filter_all_pass f l : Forall (fun x => f x = true) (List.filter f l).
Proof.
  induction l as [|x l IH]; simpl; [constructor|].
  destruct (f x) eqn:Hx; [constructor|]; done.
Qed.

Lemma filter_shorter f l : (length (List.filter f l) <= length l)%nat.
Proof.
  induction l as [|x l IH]; simpl; [lia|].
  destruct (f x); simpl; lia.
Qed.

Lemma Forall2_preimage {B} (P : A -> B -> Prop) l (k : list B) y :
  Forall2 P l k -> y ∈ k -> exists x, x ∈ l /\ P x y.
Proof.
  induction 1 as [|x y' l k Hxy _ IH]; [by intros ?%elem_of_nil|].
  intros [->|Hin]%elem_of_cons.
  - exists x. split; [apply list_elem_of_here|done].
  - destruct (IH Hin) as (x' & Hx' & HP).
    exists x'. split; [by apply list_elem_of_further|done].
Qed.

Lemma filter_complete f l x : x ∈ l -> f x = true -> x ∈ List.filter f l.
Proof.
  intros Hin Hf. apply list_elem_of_In, filter_In.
  split; [by apply list_elem_of_In|done].
Qed.
End ArrayFacts.

(** ** View filter *)
Section ViewFilter.
Import ModeManager.

Lemma filter_personal data draw :
  filterByMode "personal" data draw = (FullView data, []).
Proof. reflexivity. Qed.

Lemma filter_briefing data draw :
  filterByMode "briefing" data draw
  = (BriefingView (weather data) (createBriefingSummary data), []).
Proof. reflexivity. Qed.

Lemma filter_art data draw :
  filterByMode "art" data draw
  = (ArtView (weather data)
       (match localEvents data with
        | Some evs => List.filter isArtOrMusic evs
        | None => []
        end)
       (getRandomQuote draw), []).
Proof. reflexivity. Qed.

Lemma isArtOrMusic_spec e :
  isArtOrMusic e = true <-> ev_type e = "art" \/ ev_type e = "music".
Proof.
  unfold isArtOrMusic. rewrite orb_true_iff, !String.eqb_eq. tauto.
Qed.

(** The weather inside the summary has exactly two fields. *)
Lemma tempAndCondition_dom w :
  dom (tempAndCondition w) = ({["temp"; "condition"]} : gset string).
Proof.
  unfold tempAndCondition. rewrite !dom_insert_L, dom_empty_L. set_solver.
Qed.

Lemma summary_weather_reduced data w :
  sum_weather (createBriefingSummary data) = Some w ->
  dom w = ({["temp"; "condition"]} : gset string).
Proof.
  simpl. destruct (weather data) as [w0|]; simpl; [|done].
  intros [= <-]. apply tempAndCondition_dom.
Qed.

(** The top-level [weather] of the briefing result is the snapshot's own. *)
Lemma briefing_weather_passthrough data draw :
  out_weather (filterByMode "briefing" data draw).1 = weather data.
Proof. reflexivity. Qed.

(** C6 (the code departs from the claim): on the snapshot built with the
    static fallback reading, the briefing result carries the whole weather
    object at top level, with its icon, humidity, high, low and wind speed;
    only the copy inside the summary is cut down to temperature and
    condition. *)
Theorem briefing_exposes_full_weather :
  let out := (filterByMode "briefing" Samples.snapshotWithFallbackWeather 0).1 in
  out_weather out = Some Aggregators.fallbackWeather
  /\ Aggregators.fallbackWeather ∈ weatherObjects out
  /\ field "icon" Aggregators.fallbackWeather = JStr "02d"
  /\ field "humidity" Aggregators.fallbackWeather = JNum 55
  /\ field "high" Aggregators.fallbackWeather = JNum 78
  /\ field "low" Aggregators.fallbackWeather = JNum 65
  /\ field "windSpeed" Aggregators.fallbackWeather = JNum 8
  /\ ~ dom Aggregators.fallbackWeather ⊆ ({["temp"; "condition"]} : gset string).
Proof.
  cbn zeta. rewrite filter_briefing. cbn [fst out_weather weatherObjects].
  repeat split; try reflexivity.
  - cbn. apply list_elem_of_here.
  - intros Hsub.
    assert (Hin : "icon" ∈ dom Aggregators.fallbackWeather).
    { apply elem_of_dom. exists (JStr "02d"). reflexivity. }
    specialize (Hsub _ Hin).
    rewrite elem_of_union, !elem_of_singleton in Hsub.
    by destruct Hsub.
Qed.

Example briefing_on_sample :
  let s := createBriefingSummary Samples.snapshotWithFallbackWeather in
  todoCount s = 3%nat /\ urgentTodoCount s = 1%nat
  /\ agendaCount s = 2%nat /\ upcomingAgenda s = [Samples.review].
Proof. cbn. done. Qed.

Example art_on_sample :
  out_localEvents (filterByMode "art" Samples.snapshotWithSports 0).1
  = Some Aggregators.getLocalEvents.
Proof. reflexivity. Qed.

(** C7: in the briefing summary the urgent count never exceeds the task
    count, the upcoming agenda has at most three entries, none of them is
    done, and they appear in the order of the snapshot's agenda. *)
Theorem briefing_summary_bounds (data : snapshot) (draw : nat) :
  exists s,
    (filterByMode "briefing" data draw).1 = BriefingView (weather data) s
    /\ (urgentTodoCount s <= todoCount s)%nat
    /\ (length (upcomingAgenda s) <= 3)%nat
    /\ Forall (fun item => ag_done item = false) (upcomingAgenda s)
    /\ upcomingAgenda s `sublist_of` default [] (agenda data).
Proof.
  exists (createBriefingSummary data). split; [reflexivity|].
  unfold createBriefingSummary; cbn.
  repeat split.
  - destruct (todos data); [apply filter_shorter|lia].
  - destruct (agenda data); cbn; [|lia]. rewrite length_take. lia.
  - destruct (agenda data) as [a|]; [|constructor].
    apply Forall_take.
    eapply Forall_impl; [apply filter_all_pass|].
    cbn. intros item Hitem. by apply negb_true_iff.
  - destruct (agenda data) as [a|]; cbn; [|constructor].
    etrans; [apply sublist_take|apply filter_keeps_order].
Qed.

(** C8: the local events of the art view are exactly the art and music
    entries of the snapshot, in the snapshot's order. *)
Theorem art_events_filtered (data : snapshot) (draw : nat) :
  exists evs,
    (filterByMode "art" data draw).1
      = ArtView (weather data) evs (getRandomQuote draw)
    /\ Forall (fun e => ev_type e = "art" \/ ev_type e = "music") evs
    /\ evs `sublist_of` default [] (localEvents data)
    /\ (forall e, e ∈ default [] (localEvents data) ->
                  ev_type e = "art" \/ ev_type e = "music" -> e ∈ evs).
Proof.
  rewrite filter_art. eexists; split; [reflexivity|].
  destruct (localEvents data) as [l|]; cbn.
  - repeat split.
    + eapply Forall_impl; [apply filter_all_pass|].
      intros e. apply isArtOrMusic_spec.
    + apply filter_keeps_order.
    + intros e Hin Hty. apply filter_complete; [done|].
      by apply isArtOrMusic_spec.
  - repeat split; [constructor|constructor|].
    intros e Hin. by apply elem_of_nil in Hin.
Qed.

End ViewFilter.

(** ** Weather cache *)
Section WeatherCache.
Import WeatherAggregator.

Lemma cacheValid_fresh c w ts t :
  cachedWeather c = Some w -> cacheTimestamp c = Some ts ->
  ts <> 0 -> t - ts < CACHE_DURATION ->
  cacheValid t c = true.
Proof.
  intros Hw Hts Hnz Hlt. unfold cacheValid. rewrite Hw, Hts.
  apply andb_true_iff. split.
  - apply negb_true_iff, Z.eqb_neq. exact Hnz.
  - apply Z.ltb_lt. exact Hlt.
Qed.

Lemma cacheValid_expired c ts t :
  cacheTimestamp c = Some ts -> CACHE_DURATION <= t - ts ->
  cacheValid t c = false.
Proof.
  intros Hts Hge. unfold cacheValid. rewrite Hts.
  destruct (cachedWeather c); [|reflexivity].
  apply andb_false_iff. right. apply Z.ltb_ge. exact Hge.
Qed.

(** A fresh entry is returned as it is, whatever the upstream would say. *)
Lemma getWeather_hit env t up c :
  cacheValid t c = true ->
  getWeather env t up c
  = {| value := cachedWeather c; cacheAfter := c; liveFetches := 0 |}.
Proof. intros Hv. unfold getWeather. by rewrite Hv. Qed.

Lemma getWeather_refetch env t parsed completed c :
  configured env = true -> cacheValid t c = false ->
  getWeather env t (Fetched parsed completed) c
  = {| value := Some (weatherData parsed);
       cacheAfter := {| cachedWeather := Some (weatherData parsed);
                        cacheTimestamp := Some completed |};
       liveFetches := 1 |}.
Proof. intros Hcfg Hv. unfold getWeather. by rewrite Hv, Hcfg. Qed.


Lemma getWeather_unavailable env t msg :
  value (getWeather env t (FetchFailed msg) emptyCache) = None.
Proof. unfold getWeather. cbn. by destruct (configured env). Qed.

Lemma liveFetches_le_1 env t up c : (liveFetches (getWeather env t up c) <= 1)%nat.
Proof.
  unfold getWeather.
  destruct (cacheValid t c); [cbn; lia|].
  destruct (configured env); cbn; [|lia].
  destruct up; cbn; lia.
Qed.

(** The main aggregator replaces a null reading by its static one. *)
Lemma getWeatherData_fallback src msg :
  Aggregators.weatherUpstream src = FetchFailed msg ->
  (Aggregators.getWeatherData src emptyCache).1 = Aggregators.fallbackWeather.
Proof.
  intros Hup. unfold Aggregators.getWeatherData.
  rewrite Hup, getWeather_unavailable. reflexivity.
Qed.

(** C5: with the weather service configured and answering, (1) of two
    consecutive calls less than CACHE_DURATION apart at most one goes
    upstream, and when the first one did, the second returns the same
    reading from the cache and touches nothing; (2) any call made while the
    stored timestamp is less than CACHE_DURATION old is served from the
    cache; (3) a call made once CACHE_DURATION has elapsed goes upstream
    and stores the new reading with the time of its arrival. *)
Theorem weather_cache_ttl (env : environment) :
  configured env = true ->
  (forall c t1 d1 t2 d2 p1 p2,
      0 < t1 -> t1 <= d1 -> d1 <= t2 -> t2 - t1 < CACHE_DURATION ->
      let r1 := getWeather env t1 (Fetched p1 d1) c in
      let r2 := getWeather env t2 (Fetched p2 d2) (cacheAfter r1) in
      (liveFetches r1 + liveFetches r2 <= 1)%nat
      /\ (liveFetches r1 = 1%nat ->
          liveFetches r2 = 0%nat
          /\ value r2 = value r1
          /\ cacheAfter r2 = cacheAfter r1))
  /\ (forall c w ts t up,
      cachedWeather c = Some w -> cacheTimestamp c = Some ts ->
      ts <> 0 -> t - ts < CACHE_DURATION ->
      getWeather env t up c
      = {| value := Some w; cacheAfter := c; liveFetches := 0 |})
  /\ (forall c ts t parsed completed,
      cacheTimestamp c = Some ts -> CACHE_DURATION <= t - ts ->
      getWeather env t (Fetched parsed completed) c
      = {| value := Some (weatherData parsed);
           cacheAfter := {| cachedWeather := Some (weatherData parsed);
                            cacheTimestamp := Some completed |};
           liveFetches := 1 |}).
Proof.
  intros Hcfg. split; [|split].
  - intros c t1 d1 t2 d2 p1 p2 Hpos H1 H2 Hwin r1 r2.
    destruct (cacheValid t1 c) eqn:Hv1.
    + (* the first call is a hit *)
      assert (Hr1 : liveFetches r1 = 0%nat).
      { subst r1. by rewrite getWeather_hit. }
      split; [|intros Habs; rewrite Hr1 in Habs; discriminate].
      rewrite Hr1. apply liveFetches_le_1.
    + (* the first call goes upstream and stamps the entry with d1 *)
      assert (Hr1 : r1 = {| value := Some (weatherData p1);
                            cacheAfter := {| cachedWeather := Some (weatherData p1);
                                             cacheTimestamp := Some d1 |};
                            liveFetches := 1 |}).
      { subst r1. by apply getWeather_refetch. }
      assert (Hv2 : cacheValid t2 (cacheAfter r1) = true).
      { rewrite Hr1. eapply cacheValid_fresh; cbn; eauto; lia. }
      assert (Hr2 : r2 = {| value := cachedWeather (cacheAfter r1);
                            cacheAfter := cacheAfter r1;
                            liveFetches := 0 |}).
      { subst r2. by apply getWeather_hit. }
      rewrite Hr2. cbn. rewrite Hr1. cbn. split; [lia|done].
  - intros c w ts t up Hw Hts Hnz Hlt.
    rewrite getWeather_hit; [by rewrite Hw|].
    by eapply cacheValid_fresh.
  - intros c ts t parsed completed Hts Hge.
    apply getWeather_refetch; [done|]. by eapply cacheValid_expired.
Qed.

(** The lifecycle on an empty cache: a call at 1000 whose answer arrives at
    1200, a second call five seconds later, a third one after ten
    minutes. *)
Lemma weather_cache_ttl_witness :
  let r1 := getWeather Samples.chicago 1000
              (Fetched (Samples.reading 70) 1200) emptyCache in
  let r2 := getWeather Samples.chicago 6000
              (Fetched (Samples.reading 71) 6100) (cacheAfter r1) in
  let r3 := getWeather Samples.chicago 601200
              (Fetched (Samples.reading 72) 601500) (cacheAfter r2) in
  configured Samples.chicago = true
  /\ (liveFetches r1 + liveFetches r2 <= 1)%nat
  /\ value r2 = value r1
  /\ r3 = {| value := Some (weatherData (Samples.reading 72));
             cacheAfter := {| cachedWeather := Some (weatherData (Samples.reading 72));
                              cacheTimestamp := Some 601500 |};
             liveFetches := 1 |}.
Proof.
  intros r1 r2 r3.
  assert (Hcfg : configured Samples.chicago = true) by reflexivity.
  destruct (weather_cache_ttl Samples.chicago Hcfg) as (Hpair & Hhit & Hexp).
  assert (Hwin : 6000 - 1000 < CACHE_DURATION) by (unfold CACHE_DURATION; lia).
  destruct (Hpair emptyCache 1000 1200 6000 6100
              (Samples.reading 70) (Samples.reading 71)
              ltac:(lia) ltac:(lia) ltac:(lia) Hwin) as [Hle Hsame].
  split; [exact Hcfg|]. split; [exact Hle|].
  split; [exact (proj1 (proj2 (Hsame eq_refl)))|].
  apply (Hexp (cacheAfter r2) 1200 601200); [reflexivity|].
  unfold CACHE_DURATION. lia.
Defined.

End WeatherCache.

(** ** Todo source *)
Section TodoSource.
Import ModeManager TodoAggregator.

Lemma hours_le_threshold (delta : Z) :
  Qle_bool (inject_Z delta / inject_Z (1000 * 60 * 60)) URGENT_THRESHOLD_HOURS = true
  <-> delta <= twoHours.
Proof.
  rewrite Qle_bool_iff.
  unfold URGENT_THRESHOLD_HOURS, twoHours.
  change (1000 * 60 * 60) with 3600000.
  change (2 * 60 * 60 * 1000) with 7200000.
  unfold Qle, Qdiv, Qmult, Qinv, inject_Z. cbn. lia.
Qed.

Lemma isTaskUrgent_iff now dueDate :
  isTaskUrgent now dueDate = true
  <-> exists ms, dueDate = Some (DateMs ms) /\ ms - now <= twoHours.
Proof.
  destruct dueDate as [[ms|]|]; cbn [isTaskUrgent].
  - rewrite hours_le_threshold. split.
    + intros H. by exists ms.
    + by intros (ms' & [= <-] & H).
  - split; [discriminate|]. by intros (ms & [=] & _).
  - split; [discriminate|]. by intros (ms & [=] & _).
Qed.

Lemma elem_of_insertSorted {A} (cmp : A -> A -> Z) x y l :
  y ∈ insertSorted cmp x l -> y = x \/ y ∈ l.
Proof.
  induction l as [|z l IH]; cbn.
  - intros ->%list_elem_of_singleton. by left.
  - destruct (0 <? cmp x z)%Z.
    + intros [->|Hy]%elem_of_cons; [right; apply list_elem_of_here|].
      destruct (IH Hy) as [->|Hin]; [by left|right; by apply list_elem_of_further].
    + intros [->|Hy]%elem_of_cons; [by left|by right].
Qed.

Lemma elem_of_sort {A} (cmp : A -> A -> Z) y l :
  y ∈ sort cmp l -> y ∈ l.
Proof.
  induction l as [|x l IH]; cbn; [done|].
  intros [->|Hin]%elem_of_insertSorted; [apply list_elem_of_here|].
  apply list_elem_of_further, IH, Hin.
Qed.

Lemma formatTodo_flags now tk dueDate t :
  formatTodo now (tk, dueDate) = Some t ->
  todo_urgent t = isTaskUrgent now dueDate
  /\ todo_dueDate t = match dueDate with
                      | Some (DateMs ms) => Some ms
                      | _ => None
                      end.
Proof.
  unfold formatTodo. destruct dueDate as [[ms|]|]; cbn; intros [= <-]; done.
Qed.

Lemma mock_flags now t :
  t ∈ getMockTodos now ->
  (todo_urgent t = true
   <-> exists ms, todo_dueDate t = Some ms /\ ms - now <= twoHours).
Proof.
  unfold getMockTodos, twoHours.
  rewrite !elem_of_cons, elem_of_nil.
  intros [->|[->|[->|[]]]]; cbn; split.
  - intros _. eexists; split; [reflexivity|lia].
  - done.
  - discriminate.
  - intros (ms & [= <-] & H). lia.
  - discriminate.
  - intros (ms & [= <-] & H). lia.
Qed.

(** C4 (the code departs from the claim): when the Todoist request fails,
    [getTodos] answers with the three hard-coded sample tasks instead of
    an empty list. *)
Theorem todo_failure_returns_mock
        (parseDate : string -> jsdate) (localMidnight : Z -> Z)
        (now : Z) (message : string) :
  getTodos parseDate localMidnight (Some "token") now (TasksFailed message)
  = getMockTodos now
  /\ length (getMockTodos now) = 3%nat
  /\ List.map todo_text (getMockTodos now)
     = ["Review PRs"; "Update documentation"; "Team sync"].
Proof. repeat split. Qed.

Example inbox_flags :
  List.map (fun t => (todo_text t, todo_urgent t, todo_dueDate t)) Samples.inboxTodos
  = [ ("Pay rent", true, Some (Samples.noon - 36 * 3600000));
      ("Call plumber", true, Some (Samples.noon + 3600000));
      ("Write report", false, Some (Samples.noon + 5 * 3600000)) ].
Proof. vm_compute. reflexivity. Qed.

End TodoSource.

(** ** Connection manager *)
Section Connections.
Import WsHandler.

Lemma onConnection_count readyState clock ws newId h :
  ws ∉ clients h ->
  getActiveConnectionCount (onConnection readyState clock ws newId h).1
  = S (getActiveConnectionCount h).
Proof.
  intros Hfresh. unfold getActiveConnectionCount, onConnection. cbn.
  rewrite size_union by (by apply disjoint_singleton_r).
  rewrite size_singleton. lia.
Qed.

Lemma onClose_member ws h :
  ws ∈ clients h ->
  S (getActiveConnectionCount (onClose ws h)) = getActiveConnectionCount h.
Proof.
  intros Hin. unfold getActiveConnectionCount, onClose. cbn.
  rewrite size_difference by (by apply singleton_subseteq_l).
  rewrite size_singleton.
  assert (size (clients h) <> 0)%nat; [|lia].
  intros Hz. apply size_empty_inv in Hz. set_solver.
Qed.

Lemma onClose_absent ws h :
  ws ∉ clients h -> onClose ws h = h.
Proof.
  intros Hout. destruct h as [cl pr pi]. unfold onClose. cbn in *.
  f_equal. by apply difference_disjoint_L, disjoint_singleton_r.
Qed.

Lemma onClose_idempotent ws h :
  onClose ws (onClose ws h) = onClose ws h.
Proof.
  apply onClose_absent. unfold onClose. cbn.
  apply not_elem_of_difference. right. by apply elem_of_singleton.
Qed.

(** A socket that never answers the ping is gone after two firings of the
    health check; one that answers in between stays. *)
Example heartbeat_drops_silent :
  clients (healthCheck (healthCheck (wsHandler Samples.twoClients))) = ∅
  /\ clients (healthCheck (onPong 2 (healthCheck (wsHandler Samples.twoClients))))
     = {[ 2%nat ]}.
Proof. split; vm_compute; reflexivity. Qed.

(** C9: accepting a socket that is not yet registered raises the count by
    one; closing a registered socket lowers it by one, so accept followed
    by close gives the count back; closing again changes nothing. *)
Theorem connection_count (h : handler) (ws : nat) (newId : string)
        (readyState : nat -> nat) (clock : Z) :
  ws ∉ clients h ->
  let accepted := (onConnection readyState clock ws newId h).1 in
  let closed := onClose ws accepted in
  getActiveConnectionCount accepted = S (getActiveConnectionCount h)
  /\ S (getActiveConnectionCount closed) = getActiveConnectionCount accepted
  /\ getActiveConnectionCount closed = getActiveConnectionCount h
  /\ onClose ws closed = closed
  /\ getActiveConnectionCount (onClose ws closed) = getActiveConnectionCount closed
  /\ (forall h', ws ∈ clients h' ->
                 S (getActiveConnectionCount (onClose ws h'))
                 = getActiveConnectionCount h').
Proof.
  intros Hfresh accepted closed.
  assert (Hacc : getActiveConnectionCount accepted = S (getActiveConnectionCount h))
    by (by apply onConnection_count).
  assert (Hcl : S (getActiveConnectionCount closed) = getActiveConnectionCount accepted).
  { apply onClose_member. subst accepted. cbn. set_solver. }
  assert (Hidem : onClose ws closed = closed) by apply onClose_idempotent.
  repeat split; try done.
  - lia.
  - by rewrite Hidem.
  - intros h'. apply onClose_member.
Qed.

Lemma connection_count_witness :
  let accepted := (onConnection Samples.allOpen 0 3 "client_c"
                     (wsHandler Samples.twoClients)).1 in
  (3%nat ∉ clients (wsHandler Samples.twoClients))
  /\ getActiveConnectionCount accepted
     = S (getActiveConnectionCount (wsHandler Samples.twoClients))
  /\ getActiveConnectionCount (onClose 3 accepted)
     = getActiveConnectionCount (wsHandler Samples.twoClients).
Proof.
  intros accepted.
  assert (Hfresh : 3%nat ∉ clients (wsHandler Samples.twoClients)).
  { cbn. intros [H|H]%elem_of_union; apply elem_of_singleton in H; discriminate. }
  destruct (connection_count (wsHandler Samples.twoClients) 3 "client_c"
              Samples.allOpen 0 Hfresh) as (Hacc & _ & Hback & _).
  split; [exact Hfresh|]. split; [exact Hacc|exact Hback].
Defined.

End Connections.

(** ** Routes and scheduler *)
Section Routes.
Import ModeManager Server.

Lemma isValidMode_iff (v : jsval) :
  isValidMode v = true <-> exists s, v = JStr s /\ s ∈ getAvailableModes.
Proof.
  unfold isValidMode, includes. destruct v as [| |b|n|s|];
    try (split; [discriminate|by intros (s' & [=] & _)]).
  rewrite existsb_exists. split.
  - intros (x & Hin & Heq). apply String.eqb_eq in Heq as ->.
    exists x. split; [done|by apply list_elem_of_In].
  - intros (s' & [= ->] & Hin). exists s'.
    split; [by apply list_elem_of_In|apply String.eqb_refl].
Qed.

Lemma isValidMode_false (v : jsval) :
  (forall s, v = JStr s -> s ∉ getAvailableModes) -> isValidMode v = false.
Proof.
  intros Hout. destruct (isValidMode v) eqn:Hv; [|done].
  apply isValidMode_iff in Hv as (s & -> & Hin). by destruct (Hout s eq_refl).
Qed.

Lemma valid_mode_cases (s : string) :
  s ∈ getAvailableModes ->
  s = "personal" \/ s = "guest" \/ s = "briefing" \/ s = "weather" \/ s = "art".
Proof.
  unfold getAvailableModes. rewrite !elem_of_cons, elem_of_nil. tauto.
Qed.

(** The [default] branch of the switch. *)
Lemma filterByMode_unknown (viewId : string) data draw :
  viewId ∉ getAvailableModes ->
  filterByMode viewId data draw
  = (FullView data, ["Unknown mode '" +:+ viewId +:+ "', defaulting to personal"]).
Proof.
  unfold getAvailableModes. rewrite !not_elem_of_cons.
  intros (H1 & H2 & H3 & H4 & H5 & _).
  unfold filterByMode.
  apply String.eqb_neq in H1, H2, H3, H4, H5.
  by rewrite H1, H2, H3, H4, H5.
Qed.

(** [scheduler.setMode] itself accepts any string. *)
Lemma setMode_unchecked (viewId : string) src readyState p :
  Scheduler.getMode (Scheduler.setMode viewId src readyState p).1 = viewId.
Proof. reflexivity. Qed.

(** C1: a POST /api/dashboard/mode whose mode is not one of the five names
    is answered with status 400 ('Invalid mode', or 'Missing mode' when the
    value is falsy such as the empty string); the scheduler's mode and the
    rest of the process state stay as they were and nothing is sent to the
    sockets, so no refresh has run. *)
Theorem invalid_mode_rejected (bodyMode : jsval)
        (srcScheduler srcRoute : Aggregators.sources)
        (readyState : nat -> nat) (p : process) :
  (forall s, bodyMode = JStr s -> s ∉ getAvailableModes) ->
  let r := postMode bodyMode srcScheduler srcRoute readyState p in
  status r.1.1 = 400%nat
  /\ errorName r.1.1
     = Some (if truthy bodyMode then "Invalid mode" else "Missing mode")
  /\ (truthy bodyMode = true -> r.1.1 = InvalidMode bodyMode)
  /\ r.1.2 = p
  /\ Scheduler.getMode r.1.2 = Scheduler.getMode p
  /\ r.2 = []
  /\ broadcasts "dashboard:update" r.2 = 0%nat.
Proof.
  intros Hout%isValidMode_false r. subst r. unfold postMode.
  destruct (truthy bodyMode); cbn [negb]; [rewrite Hout|]; cbn; done.
Qed.

Lemma bogus_not_a_mode : "bogus" ∉ getAvailableModes.
Proof.
  unfold getAvailableModes. rewrite !not_elem_of_cons.
  repeat split; try discriminate. apply not_elem_of_nil.
Qed.

Lemma invalid_mode_rejected_witness :
  postMode (JStr "bogus") (Samples.outage 1000) (Samples.outage 1000)
    Samples.allOpen Samples.twoClients
  = (InvalidMode (JStr "bogus"), Samples.twoClients, []).
Proof.
  assert (Hout : forall s, JStr "bogus" = JStr s -> s ∉ getAvailableModes).
  { intros s [= <-]. exact bogus_not_a_mode. }
  destruct (invalid_mode_rejected (JStr "bogus") (Samples.outage 1000)
              (Samples.outage 1000) Samples.allOpen Samples.twoClients Hout)
    as (_ & _ & Hresp & Hstate & _ & Hsent & _).
  specialize (Hresp eq_refl).
  destruct (postMode _ _ _ _ _) as [[resp p'] sent]. cbn in *. congruence.
Defined.

(** What the aggregator does with an unknown name: the whole snapshot comes
    back, tagged with that name, and a warning is written. *)
Lemma getDashboardData_unknown (viewId : string) src c :
  viewId ∉ getAvailableModes ->
  Aggregators.filteredData (Aggregators.getDashboardData src viewId c)
  = FullView (Aggregators.fullData src viewId c)
  /\ Aggregators.warnings (Aggregators.getDashboardData src viewId c)
     = ["Unknown mode '" +:+ viewId +:+ "', defaulting to personal"].
Proof.
  intros Hout. unfold Aggregators.getDashboardData. cbn.
  by rewrite filterByMode_unknown.
Qed.

(** An absent or empty name is read as [personal] by the route. *)
Lemma getData_default (queryMode : jsval) src p :
  truthy queryMode = false ->
  (getData queryMode src p).1
  = DataOk (FullView (Aggregators.fullData src "personal" (weatherState p))).
Proof. intros Hfalsy. unfold getData. by rewrite Hfalsy. Qed.

(** C2, as stated, fails on the route: GET /api/dashboard/data?mode=bogus is
    answered with status 400 and no data. *)
Lemma snapshot_route_rejects_bogus :
  ("bogus" ∉ getAvailableModes)
  /\ getData (JStr "bogus") (Samples.outage 1000) Samples.twoClients
     = (InvalidMode (JStr "bogus"), Samples.twoClients)
  /\ status (getData (JStr "bogus") (Samples.outage 1000) Samples.twoClients).1
     = 400%nat
  /\ ~ (exists data,
         (getData (JStr "bogus") (Samples.outage 1000) Samples.twoClients).1
         = DataOk (FullView data)).
Proof.
  split; [exact bogus_not_a_mode|].
  split; [reflexivity|]. split; [reflexivity|].
  intros (data & Hdata). discriminate Hdata.
Qed.

(** C2, amended: for a name outside the five, the view filter and the
    aggregator do not fail; they return the full snapshot unchanged (the
    personal shape) and write one warning.  The route GET
    /api/dashboard/data checks the name before aggregating: a non-empty
    unknown name gets 400 'Invalid mode' and the process state is left as it
    was. *)
Theorem unknown_view_fallback (viewId : string) :
  viewId ∉ getAvailableModes ->
  (forall data draw,
      filterByMode viewId data draw
      = (FullView data, ["Unknown mode '" +:+ viewId +:+ "', defaulting to personal"]))
  /\ (forall src c,
      Aggregators.filteredData (Aggregators.getDashboardData src viewId c)
      = FullView (Aggregators.fullData src viewId c)
      /\ Aggregators.warnings (Aggregators.getDashboardData src viewId c)
         = ["Unknown mode '" +:+ viewId +:+ "', defaulting to personal"])
  /\ (forall src p,
      viewId <> "" ->
      getData (JStr viewId) src p = (InvalidMode (JStr viewId), p)).
Proof.
  intros Hout. split; [|split].
  - intros data draw. by apply filterByMode_unknown.
  - intros src c. by apply getDashboardData_unknown.
  - intros src p Hne. unfold getData.
    assert (Htruthy : truthy (JStr viewId) = true).
    { cbn. by apply negb_true_iff, String.eqb_neq. }
    rewrite Htruthy.
    rewrite isValidMode_false; [done|].
    by intros s [= <-].
Qed.

Lemma unknown_view_fallback_witness :
  (filterByMode "bogus" Samples.snapshotWithFallbackWeather 0).1
  = FullView Samples.snapshotWithFallbackWeather
  /\ getData (JStr "bogus") (Samples.outage 1000) boot
     = (InvalidMode (JStr "bogus"), boot).
Proof.
  destruct (unknown_view_fallback "bogus" bogus_not_a_mode)
    as (Hfilter & _ & Hroute).
  split.
  - by rewrite Hfilter.
  - apply Hroute. discriminate.
Defined.

(** A successful POST /api/dashboard/mode runs two aggregations and two
    [dashboard:update] broadcasts: the one inside [setMode] and the route's
    own. *)
Lemma postMode_valid (m : string) srcScheduler srcRoute readyState p :
  m ∈ getAvailableModes ->
  let r := postMode (JStr m) srcScheduler srcRoute readyState p in
  r.1.1 = ModeOk m
  /\ Scheduler.getMode r.1.2 = m
  /\ broadcasts "dashboard:update" r.2 = 2%nat.
Proof.
  intros Hin r. subst r.
  destruct (valid_mode_cases m Hin) as [-> | [-> | [-> | [-> | ->]]]]; by repeat split.
Qed.

(** C3 (the code departs from the claim): one accepted mode change to
    [guest], with two open sockets, yields two [dashboard:update]
    broadcasts, and each socket is written to twice. *)
Theorem mode_change_broadcasts_twice :
  let r := postMode (JStr "guest") (Samples.outage 1000) (Samples.outage 1000)
             Samples.allOpen Samples.twoClients in
  r.1.1 = ModeOk "guest"
  /\ Scheduler.getMode r.1.2 = "guest"
  /\ broadcasts "dashboard:update" r.2 = 2%nat
  /\ received 1 "dashboard:update" r.2 = 2%nat
  /\ received 2 "dashboard:update" r.2 = 2%nat.
Proof.
  cbn zeta.
  destruct (postMode_valid "guest" (Samples.outage 1000) (Samples.outage 1000)
              Samples.allOpen Samples.twoClients) as (Hresp & Hmode & Hcount).
  { unfold getAvailableModes. apply list_elem_of_further, list_elem_of_here. }
  split; [exact Hresp|]. split; [exact Hmode|]. split; [exact Hcount|].
  split; vm_compute; reflexivity.
Qed.

End Routes.

(** * Further properties *)

(** ** View filter and aggregator *)
Section ViewShapes.
Import ModeManager.

(** Decide which branch of the switch a name takes. *)
Ltac switch_on m :=
  unfold filterByMode;
  destruct (String.eqb m "personal") eqn:?H1;
    [apply String.eqb_eq in H1; subst m|];
  [|destruct (String.eqb m "guest") eqn:?H2;
    [apply String.eqb_eq in H2; subst m|];
   [|destruct (String.eqb m "briefing") eqn:?H3;
     [apply String.eqb_eq in H3; subst m|];
    [|destruct (String.eqb m "weather") eqn:?H4;
      [apply String.eqb_eq in H4; subst m|];
     [|destruct (String.eqb m "art") eqn:?H5;
       [apply String.eqb_eq in H5; subst m|]]]]].

(** A snapshot tagged with the name it is filtered for keeps that tag. *)
Lemma filterByMode_tag (m : string) (data : snapshot) (draw : nat) :
  mode data = m -> out_mode (filterByMode m data draw).1 = m.
Proof. intros Htag. switch_on m; cbn; done. Qed.

(** X1: whatever name is asked for, known or not, the data returned by
    [getDashboardData] is tagged with that name. *)
Theorem aggregated_mode_tag (src : Aggregators.sources) (m : string)
        (c : WeatherAggregator.cache) :
  out_mode (Aggregators.filteredData (Aggregators.getDashboardData src m c)) = m.
Proof.
  unfold Aggregators.getDashboardData. cbn [Aggregators.filteredData].
  by apply filterByMode_tag.
Qed.

(** X2: the switch of [filterByMode] and the list of [getAvailableModes]
    agree: a warning is written exactly for the names [isValidMode]
    rejects. *)
Theorem warning_iff_unknown (m : string) (data : snapshot) (draw : nat) :
  (filterByMode m data draw).2 = [] <-> isValidMode (JStr m) = true.
Proof.
  unfold isValidMode, includes, getAvailableModes, filterByMode. cbn [existsb].
  destruct (String.eqb m "personal"), (String.eqb m "guest"),
    (String.eqb m "briefing"), (String.eqb m "weather"), (String.eqb m "art");
    cbn; split; (reflexivity || discriminate).
Qed.

(** X3: data aggregated for the guest, weather or art view carries no
    task, agenda entry, next event or assistant message, whatever the
    sources returned, and neither does the update broadcast from it. *)
Theorem public_views_hide_personal (m : string) (src : Aggregators.sources)
        (c : WeatherAggregator.cache) :
  m ∈ ["guest"; "weather"; "art"] ->
  let o := Aggregators.filteredData (Aggregators.getDashboardData src m c) in
  out_todos o = None /\ out_agenda o = None
  /\ out_nextEvent o = None /\ out_llmMessage o = None
  /\ (forall readyState clock h,
        exists envelope recipients d,
          WsHandler.sendDashboardUpdate readyState clock o h
          = [WsHandler.Broadcast envelope recipients]
          /\ WsHandler.data envelope = WsHandler.DashboardData d
          /\ WsHandler.upd_todos d = None /\ WsHandler.upd_agenda d = None
          /\ WsHandler.upd_nextEvent d = None /\ WsHandler.upd_llmMessage d = None).
Proof.
  rewrite !elem_of_cons, elem_of_nil.
  intros [->|[->|[->|[]]]]; cbn zeta;
    (split; [reflexivity|]); (split; [reflexivity|]);
    (split; [reflexivity|]); (split; [reflexivity|]);
    intros readyState clock h; do 3 eexists;
    (split; [reflexivity|]); (split; [reflexivity|]); done.
Qed.

Lemma public_views_hide_personal_witness :
  out_todos (Aggregators.filteredData
               (Aggregators.getDashboardData (Samples.outage 1000) "guest"
                  WeatherAggregator.emptyCache)) = None
  /\ out_todos (Aggregators.filteredData
                  (Aggregators.getDashboardData (Samples.outage 1000) "personal"
                     WeatherAggregator.emptyCache)) <> None.
Proof.
  split; [|discriminate].
  apply (public_views_hide_personal "guest" (Samples.outage 1000)
           WeatherAggregator.emptyCache).
  apply list_elem_of_here.
Defined.

(** X4: the briefing lists the first not-done agenda entries: their number
    is the smaller of 3 and the number of not-done entries, and when at most
    three entries are not done, each of them is listed. *)
Theorem upcoming_agenda_complete (data : snapshot) (a : list agendaItem) :
  agenda data = Some a ->
  let s := createBriefingSummary data in
  let pending := List.filter (fun item => negb (ag_done item)) a in
  length (upcomingAgenda s) = (3 `min` length pending)%nat
  /\ upcomingAgenda s `prefix_of` pending
  /\ (length (upcomingAgenda s) <= agendaCount s)%nat
  /\ ((length pending <= 3)%nat ->
      forall item, item ∈ a -> ag_done item = false -> item ∈ upcomingAgenda s).
Proof.
  intros Ha s pending.
  assert (Hup : upcomingAgenda s = take 3 pending).
  { subst s pending. unfold createBriefingSummary. cbn [upcomingAgenda].
    by rewrite Ha. }
  assert (Hcount : agendaCount s = length a).
  { subst s. unfold createBriefingSummary. cbn [agendaCount]. by rewrite Ha. }
  assert (Hshort : (length pending <= length a)%nat) by apply filter_shorter.
  rewrite Hup, Hcount, length_take.
  split; [reflexivity|]. split; [apply prefix_take|]. split; [lia|].
  intros Hle item Hin Hdone. rewrite take_ge by lia.
  apply filter_complete; [done|]. by rewrite Hdone.
Qed.

Lemma upcoming_agenda_complete_witness :
  Samples.review
  ∈ upcomingAgenda (createBriefingSummary Samples.snapshotWithFallbackWeather).
Proof.
  destruct (upcoming_agenda_complete Samples.snapshotWithFallbackWeather
              [Samples.standup; Samples.review] eq_refl) as (_ & _ & _ & Hall).
  apply Hall.
  - cbn. lia.
  - apply list_elem_of_further, list_elem_of_here.
  - reflexivity.
Defined.

End ViewShapes.

(** ** Broadcast, targeted send and heartbeat *)
Section Delivery.
Import ModeManager WsHandler.

Lemma elem_of_openClients readyState h ws :
  ws ∈ openClients readyState h <-> ws ∈ clients h /\ readyState ws = OPEN.
Proof.
  unfold openClients. rewrite list_elem_of_In, filter_In, <- list_elem_of_In.
  rewrite elem_of_elements, Nat.eqb_eq. reflexivity.
Qed.

Lemma NoDup_openClients readyState h : NoDup (openClients readyState h).
Proof.
  eapply sublist_NoDup; [apply (NoDup_elements (clients h))|apply filter_keeps_order].
Qed.

(** X5: one [broadcast] call writes one and the same envelope, once, to
    exactly the registered sockets whose readyState is OPEN. *)
Theorem broadcast_recipients (readyState : nat -> nat) (clock : Z)
        (ev : string) (d : payloadData) (h : handler) :
  exists recipients,
    broadcast readyState clock ev d h
    = [Broadcast {| event := ev; data := d; timestamp := clock |} recipients]
    /\ NoDup recipients
    /\ (forall ws, ws ∈ recipients <-> ws ∈ clients h /\ readyState ws = OPEN).
Proof.
  exists (openClients readyState h). split; [reflexivity|].
  split; [apply NoDup_openClients|]. intros ws. apply elem_of_openClients.
Qed.

(** X6: what goes out on the sockets does not depend on the quote drawn,
    and for the briefing view it does not depend on the summary: the update
    is built from the seven top-level fields only. *)
Theorem update_ignores_quote_and_summary (readyState : nat -> nat) (clock : Z)
        (h : handler) (m : string) (data : snapshot) :
  (forall draw1 draw2,
      sendDashboardUpdate readyState clock (filterByMode m data draw1).1 h
      = sendDashboardUpdate readyState clock (filterByMode m data draw2).1 h)
  /\ (forall summary1 summary2,
      sendDashboardUpdate readyState clock (BriefingView (weather data) summary1) h
      = sendDashboardUpdate readyState clock (BriefingView (weather data) summary2) h)
  /\ (forall draw,
      sendDashboardUpdate readyState clock (filterByMode "briefing" data draw).1 h
      = broadcast readyState clock "dashboard:update"
          (DashboardData {| upd_mode := "briefing";
                            upd_weather := weather data;
                            upd_nextEvent := None;
                            upd_todos := None;
                            upd_agenda := None;
                            upd_localEvents := None;
                            upd_llmMessage := None |}) h).
Proof.
  split; [|split]; [|reflexivity..].
  intros draw1 draw2. unfold filterByMode.
  destruct (String.eqb m "personal"), (String.eqb m "guest"),
    (String.eqb m "briefing"), (String.eqb m "weather"), (String.eqb m "art");
    reflexivity.
Qed.

Lemma not_received_outside readyState clock ev d h ws ev' :
  ws ∉ clients h ->
  received ws ev' (broadcast readyState clock ev d h) = 0%nat.
Proof.
  intros Hout. unfold received, broadcast. cbn.
  assert (Hno : existsb (Nat.eqb ws)
                  (List.filter (fun client => Nat.eqb (readyState client) OPEN)
                     (elements (clients h))) = false).
  { apply not_true_iff_false. rewrite existsb_exists.
    intros (x & Hin & Heq). apply Nat.eqb_eq in Heq as <-.
    apply list_elem_of_In, (elem_of_openClients readyState h ws) in Hin.
    by destruct Hin. }
  rewrite Hno, andb_false_r. reflexivity.
Qed.

(** X7: once a socket has been closed (or has failed) no broadcast and no
    dashboard update is written to it any more, whatever its readyState. *)
Theorem closed_socket_not_written (ws : nat) (h : handler)
        (readyState : nat -> nat) (clock : Z) :
  (forall ev d ev',
      received ws ev' (broadcast readyState clock ev d (onClose ws h)) = 0%nat
      /\ received ws ev' (broadcast readyState clock ev d (onError ws h)) = 0%nat)
  /\ (forall o ev',
      received ws ev' (sendDashboardUpdate readyState clock o (onClose ws h)) = 0%nat).
Proof.
  assert (Hgone : ws ∉ clients (onClose ws h)).
  { cbn. apply not_elem_of_difference. right. by apply elem_of_singleton. }
  split.
  - intros ev d ev'. split; by apply not_received_outside.
  - intros o ev'. by apply not_received_outside.
Qed.

End Delivery.

Section Heartbeat.
Import WsHandler.

Lemma healthCheck_clients h ws :
  ws ∈ clients (healthCheck h) <-> ws ∈ clients h /\ alive h ws = true.
Proof. unfold healthCheck. cbn [clients]. rewrite elem_of_filter. tauto. Qed.

(** The properties after one firing: the sockets kept are marked, the
    others are not touched. *)
Lemma healthCheck_props h ws :
  props (healthCheck h) !! ws
  = if decide (ws ∈ clients h /\ alive h ws = true)
    then (fun p => {| clientId := clientId p; isAlive := false |}) <$> props h !! ws
    else props h !! ws.
Proof.
  unfold healthCheck. cbn [props].
  set (P := fun (m : gmap nat socketProps) (X : gset nat) =>
              forall ws,
                m !! ws
                = if decide (ws ∈ X /\ alive h ws = true)
                  then (fun p => {| clientId := clientId p; isAlive := false |})
                         <$> props h !! ws
                  else props h !! ws).
  revert ws. change (P (set_fold
                          (fun ws m =>
                             if alive h ws
                             then alter (fun p => {| clientId := clientId p;
                                                     isAlive := false |}) ws m
                             else m)
                          (props h) (clients h)) (clients h)).
  apply (set_fold_ind_L P); subst P; cbn beta.
  - intros ws. rewrite decide_False; [done|].
    intros [Hin _]. by apply not_elem_of_empty in Hin.
  - intros x X r Hx IH ws.
    destruct (alive h x) eqn:Hax.
    + rewrite lookup_alter. destruct (decide (x = ws)) as [->|Hne].
      * rewrite IH. rewrite decide_False by (intros [? _]; done).
        rewrite decide_True; [done|]. split; [|done].
        apply elem_of_union. left. by apply elem_of_singleton.
      * rewrite IH. destruct (decide (ws ∈ X /\ alive h ws = true)) as [[Hin Ha]|Hn].
        -- rewrite decide_True; [done|]. split; [|done].
           apply elem_of_union. by right.
        -- rewrite decide_False; [done|]. intros [Hin Ha]. apply Hn.
           split; [|done]. apply elem_of_union in Hin as [Hin|Hin]; [|done].
           apply elem_of_singleton in Hin. congruence.
    + rewrite IH. destruct (decide (ws ∈ X /\ alive h ws = true)) as [[Hin Ha]|Hn].
      * rewrite decide_True; [done|]. split; [|done].
        apply elem_of_union. by right.
      * rewrite decide_False; [done|]. intros [Hin Ha]. apply Hn.
        split; [|done]. apply elem_of_union in Hin as [Hin|Hin]; [|done].
        apply elem_of_singleton in Hin. congruence.
Qed.

(** Right after a firing every socket still registered is marked. *)
Lemma healthCheck_marks h ws :
  ws ∈ clients (healthCheck h) -> alive (healthCheck h) ws = false.
Proof.
  intros Hin. apply healthCheck_clients in Hin as Hboth.
  unfold alive at 1. rewrite healthCheck_props, decide_True by done.
  destruct Hboth as [_ Ha]. unfold alive in Ha.
  by destruct (props h !! ws).
Qed.

Lemma onPong_alive_other ws ws' h :
  ws <> ws' -> alive (onPong ws' h) ws = alive h ws.
Proof.
  intros Hne. unfold alive, onPong. cbn [props].
  by rewrite lookup_alter_ne.
Qed.

Lemma pongs_alive_other ws (pongs : list nat) h :
  ws ∉ pongs -> alive (foldr onPong h pongs) ws = alive h ws
                /\ clients (foldr onPong h pongs) = clients h.
Proof.
  induction pongs as [|ws' pongs IH]; cbn [foldr]; [done|].
  intros [Hne Hout]%not_elem_of_cons.
  destruct (IH Hout) as [Ha Hc].
  split; [by rewrite onPong_alive_other|exact Hc].
Qed.

(** X8: a socket whose pong does not arrive between two firings of the
    health check is no longer registered after the second one, whichever
    other sockets answered in between; with no pong at all the set is
    empty. *)
Theorem heartbeat_two_strikes (h : handler) :
  (forall ws (pongs : list nat),
      ws ∉ pongs ->
      ws ∉ clients (healthCheck (foldr onPong (healthCheck h) pongs)))
  /\ clients (healthCheck (healthCheck h)) = ∅
  /\ getActiveConnectionCount (healthCheck (healthCheck h)) = 0%nat.
Proof.
  assert (Hstrike : forall ws (pongs : list nat),
             ws ∉ pongs ->
             ws ∉ clients (healthCheck (foldr onPong (healthCheck h) pongs))).
  { intros ws pongs Hout Hin.
    apply healthCheck_clients in Hin as [Hin Ha].
    destruct (pongs_alive_other ws pongs (healthCheck h) Hout) as [Hsame Hcl].
    rewrite Hsame in Ha. rewrite Hcl in Hin.
    apply healthCheck_marks in Hin. congruence. }
  assert (Hempty : clients (healthCheck (healthCheck h)) = ∅).
  { apply leibniz_equiv, elem_of_equiv_empty. intros ws.
    apply (Hstrike ws []), not_elem_of_nil. }
  split; [exact Hstrike|]. split; [exact Hempty|].
  unfold getActiveConnectionCount. rewrite Hempty. apply size_empty.
Qed.

Lemma round_keeps ws h :
  ws ∈ clients h -> alive h ws = true ->
  ws ∈ clients (onPong ws (healthCheck h))
  /\ alive (onPong ws (healthCheck h)) ws = true
  /\ (clientId <$> props (onPong ws (healthCheck h)) !! ws)
     = (clientId <$> props h !! ws).
Proof.
  intros Hin Ha.
  assert (Hkept : ws ∈ clients (healthCheck h)) by (by apply healthCheck_clients).
  split; [exact Hkept|].
  unfold alive, onPong. cbn [props]. rewrite lookup_alter_eq.
  rewrite healthCheck_props, decide_True by done.
  unfold alive in Ha. by destruct (props h !! ws).
Qed.

(** X9: a registered socket that answers every ping stays registered, for
    any number of health-check rounds, and keeps its client id. *)
Theorem heartbeat_keeps_responsive (h : handler) (ws : nat) (rounds : nat) :
  ws ∈ clients h -> alive h ws = true ->
  let h' := Nat.iter rounds (fun h => onPong ws (healthCheck h)) h in
  ws ∈ clients h' /\ alive h' ws = true
  /\ ws ∈ clients (healthCheck h')
  /\ (clientId <$> props h' !! ws) = (clientId <$> props h !! ws).
Proof.
  intros Hin Ha. cbn zeta.
  assert (Hinv : ws ∈ clients (Nat.iter rounds (fun h => onPong ws (healthCheck h)) h)
                 /\ alive (Nat.iter rounds (fun h => onPong ws (healthCheck h)) h) ws = true
                 /\ (clientId <$> props (Nat.iter rounds (fun h => onPong ws (healthCheck h)) h) !! ws)
                    = (clientId <$> props h !! ws)).
  { induction rounds as [|n IH]; cbn [Nat.iter]; [done|].
    destruct IH as (Hin' & Ha' & Hid').
    destruct (round_keeps ws _ Hin' Ha') as (Hin'' & Ha'' & Hid'').
    split; [exact Hin''|]. split; [exact Ha''|].
    etrans; [exact Hid''|exact Hid']. }
  destruct Hinv as (Hin' & Ha' & Hid').
  split; [exact Hin'|]. split; [exact Ha'|]. split; [|exact Hid'].
  by apply healthCheck_clients.
Qed.

Lemma heartbeat_keeps_responsive_witness :
  2%nat ∈ clients (healthCheck
                     (Nat.iter 3 (fun h => onPong 2 (healthCheck h))
                        (wsHandler Samples.twoClients))).
Proof.
  apply (heartbeat_keeps_responsive (wsHandler Samples.twoClients) 2 3).
  - cbn. apply elem_of_union. right. by apply elem_of_singleton.
  - reflexivity.
Defined.

End Heartbeat.

Section TargetedSend.
Import WsHandler.

(** X10: [sendToClient] reports success exactly when a registered, OPEN
    socket bears the id; it then writes one message to such a socket and to
    no other, and on failure it writes nothing. *)
Theorem sendToClient_spec (readyState : nat -> nat) (clock : Z)
        (id ev : string) (d : payloadData) (h : handler) :
  let r := sendToClient readyState clock id ev d h in
  (r.1 = true <->
   exists ws, ws ∈ clients h /\ hasClientId h id ws = true /\ readyState ws = OPEN)
  /\ (r.1 = false -> r.2 = [])
  /\ (r.1 = true ->
      exists ws, r.2 = [Unicast ws {| event := ev; data := d; timestamp := clock |}]
                 /\ ws ∈ clients h
                 /\ hasClientId h id ws = true
                 /\ readyState ws = OPEN).
Proof.
  cbn zeta. unfold sendToClient.
  destruct (List.find _ _) as [ws|] eqn:Hfind.
  - apply find_some in Hfind as [Hin Hok].
    apply list_elem_of_In, elem_of_elements in Hin.
    apply andb_true_iff in Hok as [Hid Hopen]. apply Nat.eqb_eq in Hopen.
    cbn [fst snd]. split; [|split].
    + split; [intros _; by exists ws|done].
    + discriminate.
    + intros _. exists ws. unfold sendToSocket.
      rewrite Hopen, Nat.eqb_refl. done.
  - cbn [fst snd]. split; [|split]; [|done|discriminate].
    split; [discriminate|]. intros (ws & Hin & Hid & Hopen).
    apply elem_of_elements, list_elem_of_In in Hin.
    pose proof (find_none _ _ Hfind ws Hin) as Hno. cbn in Hno.
    rewrite Hid, Hopen, Nat.eqb_refl in Hno. discriminate.
Qed.

(** X11: a socket that has just been accepted, is OPEN and whose fresh id
    no registered socket bears is reached through that id: [sendToClient]
    succeeds and writes to it alone. *)
Theorem accept_then_sendToClient (readyState : nat -> nat) (clock : Z)
        (ws : nat) (newId ev : string) (d : payloadData) (h : handler) :
  readyState ws = OPEN ->
  (forall other, other ∈ clients h -> other <> ws ->
                 hasClientId h newId other = false) ->
  sendToClient readyState clock newId ev d
    (onConnection readyState clock ws newId h).1
  = (true, [Unicast ws {| event := ev; data := d; timestamp := clock |}]).
Proof.
  intros Hopen Hunique.
  set (h1 := (onConnection readyState clock ws newId h).1).
  assert (Hmine : hasClientId h1 newId ws = true).
  { unfold hasClientId, h1, onConnection. cbn [fst props].
    rewrite lookup_insert_eq. cbn. apply String.eqb_refl. }
  assert (Hreg : ws ∈ clients h1).
  { unfold h1, onConnection. cbn [fst clients].
    apply elem_of_union. right. by apply elem_of_singleton. }
  unfold sendToClient.
  destruct (List.find _ _) as [ws'|] eqn:Hfind.
  - apply find_some in Hfind as [Hin Hok].
    apply list_elem_of_In, elem_of_elements in Hin.
    apply andb_true_iff in Hok as [Hid _].
    assert (ws' = ws) as ->.
    { destruct (decide (ws' = ws)) as [|Hne]; [done|]. exfalso.
      unfold h1, onConnection in Hin, Hid. cbn [fst clients props] in Hin.
      apply elem_of_union in Hin as [Hin|Hin];
        [|apply elem_of_singleton in Hin; congruence].
      unfold hasClientId in Hid. cbn [fst props] in Hid.
      rewrite lookup_insert_ne in Hid by congruence.
      specialize (Hunique ws' Hin Hne). unfold hasClientId in Hunique. congruence. }
    unfold sendToSocket. by rewrite Hopen, Nat.eqb_refl.
  - apply elem_of_elements, list_elem_of_In in Hreg.
    pose proof (find_none _ _ Hfind ws Hreg) as Hno. cbv beta in Hno.
    rewrite Hmine, Hopen, Nat.eqb_refl in Hno. discriminate.
Qed.

Lemma accept_then_sendToClient_witness :
  sendToClient Samples.allOpen 5 "client_c" "dashboard:update"
    (ErrorData "x" None)
    (onConnection Samples.allOpen 5 3 "client_c" (wsHandler Samples.twoClients)).1
  = (true, [Unicast 3 {| event := "dashboard:update";
                         data := ErrorData "x" None; timestamp := 5 |}]).
Proof.
  apply accept_then_sendToClient; [reflexivity|].
  intros other Hin _. cbn in Hin.
  apply elem_of_union in Hin as [Hin|Hin]; apply elem_of_singleton in Hin;
    subst other; reflexivity.
Defined.

(** [getClientIds] lists one id per registered socket, and after an accept
    the new id is among them. *)
Lemma getClientIds_accept (readyState : nat -> nat) (clock : Z)
        (ws : nat) (newId : string) (h : handler) :
  length (getClientIds h) = getActiveConnectionCount h
  /\ Some newId ∈ getClientIds (onConnection readyState clock ws newId h).1.
Proof.
  split.
  - unfold getClientIds, getActiveConnectionCount. by rewrite length_map.
  - unfold getClientIds. apply list_elem_of_In, in_map_iff. exists ws. split.
    + unfold onConnection. cbn [fst props]. by rewrite lookup_insert_eq.
    + apply list_elem_of_In, elem_of_elements.
      unfold onConnection. cbn [fst clients].
      apply elem_of_union. right. by apply elem_of_singleton.
Qed.

End TargetedSend.

(** ** Weather cache: invariants and degraded paths *)
Section WeatherMore.
Import WeatherAggregator.

Lemma getWeather_value_stored env now up c :
  value (getWeather env now up c) = cachedWeather (cacheAfter (getWeather env now up c)).
Proof.
  unfold getWeather. destruct (cacheValid now c); [done|].
  destruct (configured env); [|done]. by destruct up.
Qed.

Lemma getWeather_keeps env now up c :
  is_Some (cachedWeather c) -> is_Some (value (getWeather env now up c)).
Proof.
  unfold getWeather. destruct (cacheValid now c); [done|].
  destruct (configured env); [|done]. destruct up; [by eexists|done].
Qed.

(** X12: what [getWeather] returns is always what the cache holds after the
    call; a cache that holds a reading never answers null, and a null answer
    leaves the cache as it was. *)
Theorem getWeather_returns_cache (env : environment) (now : Z) (up : upstream)
        (c : cache) :
  let r := getWeather env now up c in
  value r = cachedWeather (cacheAfter r)
  /\ (is_Some (cachedWeather c) -> is_Some (value r))
  /\ (value r = None -> cacheAfter r = c /\ cachedWeather c = None).
Proof.
  cbn zeta. split; [apply getWeather_value_stored|].
  split; [apply getWeather_keeps|].
  unfold getWeather.
  destruct (cacheValid now c) eqn:Hv; cbn; [by intros ->|].
  destruct (configured env); cbn; [|by intros ->].
  destruct up; cbn; [discriminate|by intros ->].
Qed.

Lemma getWeatherMany_cons env now up calls c :
  (getWeatherMany env ((now, up) :: calls) c).1
  = value (getWeather env now up c)
    :: (getWeatherMany env calls (cacheAfter (getWeather env now up c))).1.
Proof.
  cbn [getWeatherMany].
  by destruct (getWeatherMany env calls (cacheAfter (getWeather env now up c))).
Qed.

Lemma getWeatherMany_Some env calls c :
  is_Some (cachedWeather c) ->
  Forall is_Some (getWeatherMany env calls c).1.
Proof.
  revert c. induction calls as [|[now up] calls IH]; intros c Hc; [constructor|].
  rewrite getWeatherMany_cons.
  constructor; [by apply getWeather_keeps|].
  apply IH. rewrite <- getWeather_value_stored. by apply getWeather_keeps.
Qed.

(** X13: over any sequence of calls, once [getWeather] has returned a
    reading it never returns null again: the answers are nulls followed by
    readings. *)
Theorem weather_never_regresses (env : environment)
        (calls : list (Z * upstream)) (c : cache) :
  exists k,
    Forall (fun v => v = None) (take k (getWeatherMany env calls c).1)
    /\ Forall is_Some (drop k (getWeatherMany env calls c).1).
Proof.
  revert c. induction calls as [|[now up] calls IH]; intros c.
  { exists 0%nat. cbn. split; constructor. }
  rewrite getWeatherMany_cons.
  pose proof (getWeather_value_stored env now up c) as Heq.
  destruct (value (getWeather env now up c)) as [w|] eqn:Hval.
  - exists 0%nat. rewrite take_0, drop_0. split; [constructor|].
    constructor; [by eexists|].
    apply getWeatherMany_Some. rewrite <- Heq. by eexists.
  - destruct (IH (cacheAfter (getWeather env now up c))) as (k & Hnone & Hsome).
    exists (S k). cbn [take drop]. split; [by constructor|exact Hsome].
Qed.

(** X14: while the key or a coordinate is falsy, and a latitude or
    longitude of 0 is, [getWeather] never goes upstream and never touches the
    cache; it answers with whatever the cache holds. *)
Theorem unconfigured_never_fetches (env : environment) (now : Z)
        (up : upstream) (c : cache) :
  configured env = false ->
  getWeather env now up c
  = {| value := cachedWeather c; cacheAfter := c; liveFetches := 0 |}.
Proof.
  intros Hcfg. unfold getWeather. rewrite Hcfg.
  by destruct (cacheValid now c).
Qed.

Lemma unconfigured_never_fetches_witness :
  configured Samples.quito = false
  /\ getWeather Samples.quito 1000 (Fetched (Samples.reading 80) 1200) emptyCache
     = {| value := None; cacheAfter := emptyCache; liveFetches := 0 |}.
Proof.
  assert (Hcfg : configured Samples.quito = false) by reflexivity.
  split; [exact Hcfg|].
  exact (unconfigured_never_fetches Samples.quito 1000
           (Fetched (Samples.reading 80) 1200) emptyCache Hcfg).
Defined.

(** X15: [getCacheStatus] and [getWeather] agree: when [isValid] is truthy
    the next [getWeather] at that instant is served from the cache, and
    without cached data [isValid] is null. *)
Theorem cacheStatus_agrees (env : environment) (now : Z) (up : upstream)
        (c : cache) :
  truthy (isValid (getCacheStatus now c)) = cacheValid now c
  /\ (truthy (isValid (getCacheStatus now c)) = true ->
      getWeather env now up c
      = {| value := cachedWeather c; cacheAfter := c; liveFetches := 0 |})
  /\ (hasCachedData (getCacheStatus now c) = false ->
      isValid (getCacheStatus now c) = JNull).
Proof.
  assert (Hsame : truthy (isValid (getCacheStatus now c)) = cacheValid now c).
  { unfold getCacheStatus, cacheValid. cbn [isValid].
    destruct (cachedWeather c), (cacheTimestamp c) as [ts|]; try reflexivity.
    destruct (Z.eqb ts 0); reflexivity. }
  split; [exact Hsame|]. split.
  - rewrite Hsame. apply getWeather_hit.
  - unfold getCacheStatus. cbn [hasCachedData isValid].
    destruct (cachedWeather c); [|done].
    intros Hno. apply bool_decide_eq_false in Hno. destruct Hno. by eexists.
Qed.

(** A stored reading has exactly the nine dashboard fields, each copied
    from the parsed answer; anything else the weather client parsed
    (sunrise, sunset, location) is not kept. *)
Lemma weatherData_fields (parsedData : jsobject) :
  dom (weatherData parsedData) = list_to_set weatherFields
  /\ (forall k, k ∈ weatherFields ->
                field k (weatherData parsedData) = field k parsedData)
  /\ (forall k, k ∉ weatherFields ->
                field k (weatherData parsedData) = JUndefined).
Proof.
  split; [|split].
  - unfold weatherData, weatherFields. rewrite !dom_insert_L, dom_empty_L.
    cbn. reflexivity.
  - unfold weatherFields. intros k. rewrite !elem_of_cons, elem_of_nil.
    intros [->|[->|[->|[->|[->|[->|[->|[->|[->|[]]]]]]]]]]; reflexivity.
  - unfold weatherFields. intros k. rewrite !not_elem_of_cons.
    intros (H1 & H2 & H3 & H4 & H5 & H6 & H7 & H8 & H9 & _).
    unfold field, weatherData.
    rewrite !lookup_insert_ne, lookup_empty by congruence. reflexivity.
Qed.



End WeatherMore.

(** ** Todo list: order, provenance and urgency *)
Section TodoList.
Import ModeManager TodoAggregator.

Lemma insertSorted_perm {A} (cmp : A -> A -> Z) x l :
  insertSorted cmp x l ≡ₚ x :: l.
Proof.
  induction l as [|y l IH]; cbn; [done|].
  destruct (0 <? cmp x y)%Z; [|done].
  rewrite IH. apply perm_swap.
Qed.

Lemma sort_perm {A} (cmp : A -> A -> Z) l : sort cmp l ≡ₚ l.
Proof.
  induction l as [|x l IH]; cbn; [done|].
  by rewrite insertSorted_perm, IH.
Qed.

Lemma insertSorted_sorted {A} (cmp : A -> A -> Z) x l :
  (forall a b, 0 < cmp a b -> cmp b a <= 0) ->
  Sorted (fun a b => cmp a b <= 0) l ->
  Sorted (fun a b => cmp a b <= 0) (insertSorted cmp x l).
Proof.
  intros Htotal. induction 1 as [|y l Hl IH Hhd]; cbn.
  - repeat constructor.
  - destruct (0 <? cmp x y)%Z eqn:Hcmp.
    + apply Z.ltb_lt in Hcmp. constructor; [exact IH|].
      destruct l as [|z l]; cbn.
      * constructor. by apply Htotal.
      * destruct (0 <? cmp x z)%Z.
        -- constructor. by inversion Hhd.
        -- constructor. by apply Htotal.
    + apply Z.ltb_ge in Hcmp. constructor; [by constructor|by constructor].
Qed.

Lemma sort_sorted {A} (cmp : A -> A -> Z) l :
  (forall a b, 0 < cmp a b -> cmp b a <= 0) ->
  Sorted (fun a b => cmp a b <= 0) (sort cmp l).
Proof.
  intros Htotal. induction l as [|x l IH]; cbn; [constructor|].
  by apply insertSorted_sorted.
Qed.

Lemma compareTodos_total a b : 0 < compareTodos a b -> compareTodos b a <= 0.
Proof.
  unfold compareTodos.
  destruct (todo_dueDate a) as [da|], (todo_dueDate b) as [db|]; try lia.
  destruct (Z.eqb_spec (da - db) 0), (Z.eqb_spec (db - da) 0); cbn; lia.
Qed.

Lemma compareTodos_dueOrder a b da db :
  todo_dueDate a = Some da -> todo_dueDate b = Some db ->
  compareTodos a b <= 0 -> dueOrder a b.
Proof.
  intros Ha Hb. unfold compareTodos. rewrite Ha, Hb.
  intros Hle. exists da, db. split; [done|]. split; [done|].
  destruct (Z.eqb_spec (da - db) 0); cbn in Hle; [right|left]; lia.
Qed.

#[local] Instance dueOrder_trans : Transitive dueOrder.
Proof.
  intros a b c (da & db & Ha & Hb & Hab) (db' & dc & Hb' & Hc & Hbc).
  rewrite Hb in Hb'. injection Hb' as <-.
  exists da, dc. split; [done|]. split; [done|]. lia.
Qed.

Lemma relevant_has_instant parseDate localMidnight now tasks td :
  td ∈ relevantTasks parseDate localMidnight now tasks ->
  td.1 ∈ tasks /\ task_isCompleted td.1 = false
  /\ td.2 = parseDueDate parseDate (task_due td.1)
  /\ exists ms, td.2 = Some (DateMs ms) /\ localMidnight ms <= localMidnight now.
Proof.
  unfold relevantTasks. rewrite list_elem_of_In, filter_In, in_map_iff.
  intros [(t & <- & Hin) Hdue]. apply filter_In in Hin as [Hin Hnot].
  cbn in *. split; [by apply list_elem_of_In|].
  split; [by apply negb_true_iff|]. split; [done|].
  destruct (parseDueDate parseDate (task_due t)) as [[ms|]|]; try discriminate.
  exists ms. split; [done|]. by apply Z.leb_le.
Qed.

(** With a token and an answer from Todoist, the entries are the formatted
    relevant tasks, sorted. *)
Lemma getTodos_listed parseDate localMidnight apiToken now tasks :
  WeatherAggregator.truthyString apiToken = true ->
  exists formatted,
    Forall2 (fun td t => formatTodo now td = Some t)
      (relevantTasks parseDate localMidnight now tasks) formatted
    /\ getTodos parseDate localMidnight apiToken now (TasksOk (Some tasks))
       = sort compareTodos formatted.
Proof.
  intros Htok. unfold getTodos. rewrite Htok. cbn [negb].
  destruct tasks as [|t0 ts]; [exists []; split; [constructor|done]|].
  fold (relevantTasks parseDate localMidnight now (t0 :: ts)).
  assert (Hsome : is_Some (mapM (formatTodo now)
                             (relevantTasks parseDate localMidnight now (t0 :: ts)))).
  { apply mapM_is_Some, Forall_forall. intros [t d] Hin.
    apply relevant_has_instant in Hin as (_ & _ & _ & ms & Hd & _).
    cbn in Hd. subst d. by eexists. }
  destruct Hsome as [formatted Hm]. rewrite Hm.
  exists formatted. split; [by apply mapM_Some|done].
Qed.

(** X17: with a token and an answer from Todoist, [getTodos] returns its
    entries ordered by due instant, earliest first, and by priority,
    highest first, among entries due at the same instant: every entry
    precedes, in that order, all entries after it. *)
Theorem todos_sorted (parseDate : string -> jsdate) (localMidnight : Z -> Z)
        (apiToken : option string) (now : Z) (tasks : list task) :
  WeatherAggregator.truthyString apiToken = true ->
  StronglySorted dueOrder
    (getTodos parseDate localMidnight apiToken now (TasksOk (Some tasks))).
Proof.
  intros Htok.
  destruct (getTodos_listed parseDate localMidnight apiToken now tasks Htok)
    as (formatted & Hfmt & ->).
  assert (Hdue : Forall (fun t => is_Some (todo_dueDate t)) (sort compareTodos formatted)).
  { apply Forall_forall. intros t Hin.
    rewrite sort_perm in Hin.
    destruct (Forall2_preimage _ _ _ _ Hfmt Hin) as ([tk d] & Hrel & Hf).
    apply relevant_has_instant in Hrel as (_ & _ & _ & ms & Hd & _).
    cbn in Hd. subst d.
    destruct (formatTodo_flags _ _ _ _ Hf) as [_ ->]. by eexists. }
  apply Sorted_StronglySorted; [apply dueOrder_trans|].
  pose proof (sort_sorted compareTodos formatted compareTodos_total) as Hsorted.
  induction Hsorted as [|t l Hl IH Hhd]; [constructor|].
  apply Forall_cons in Hdue as [[dt Ht] Hdue].
  constructor; [by apply IH|].
  destruct Hhd as [|u l' Hle]; constructor.
  apply Forall_cons in Hdue as [[du Hu] _].
  by eapply compareTodos_dueOrder.
Qed.

Lemma todos_sorted_witness :
  StronglySorted dueOrder Samples.inboxTodos.
Proof.
  exact (todos_sorted Samples.parseKnown Samples.utcMidnight (Some "token")
           Samples.noon Samples.inbox eq_refl).
Defined.

(** X18: with a token and an answer from Todoist, every entry stems from a
    task of the answer that is not completed and whose due date parses to an
    instant on today's local day or an earlier one; it carries that task's
    id, content, priority and labels and is not done.  Conversely every such
    task is listed, and nothing else: the list is as long as the relevant
    tasks are many. *)
Theorem todos_provenance (parseDate : string -> jsdate) (localMidnight : Z -> Z)
        (apiToken : option string) (now : Z) (tasks : list task) :
  WeatherAggregator.truthyString apiToken = true ->
  let out := getTodos parseDate localMidnight apiToken now (TasksOk (Some tasks)) in
  (forall t, t ∈ out ->
     todo_done t = false
     /\ exists tk ms,
         tk ∈ tasks /\ task_isCompleted tk = false
         /\ parseDueDate parseDate (task_due tk) = Some (DateMs ms)
         /\ localMidnight ms <= localMidnight now
         /\ todo_id t = task_id tk /\ todo_text t = task_content tk
         /\ todo_priority t = task_priority tk /\ todo_labels t = task_labels tk
         /\ todo_dueDate t = Some ms)
  /\ (forall tk ms,
        tk ∈ tasks -> task_isCompleted tk = false ->
        parseDueDate parseDate (task_due tk) = Some (DateMs ms) ->
        localMidnight ms <= localMidnight now ->
        exists t, t ∈ out /\ todo_id t = task_id tk /\ todo_dueDate t = Some ms)
  /\ length out = length (relevantTasks parseDate localMidnight now tasks)
  /\ (length out <= length tasks)%nat.
Proof.
  intros Htok out. subst out.
  destruct (getTodos_listed parseDate localMidnight apiToken now tasks Htok)
    as (formatted & Hfmt & ->).
  split; [|split; [|split]].
  - intros t Hin. rewrite sort_perm in Hin.
    destruct (Forall2_preimage _ _ _ _ Hfmt Hin) as ([tk d] & Hrel & Hf).
    apply relevant_has_instant in Hrel as (Htk & Hnc & Hparse & ms & Hd & Hday).
    cbn in *. rewrite Hd in Hf, Hparse. cbn in Hf.
    injection Hf as <-. cbn.
    split; [done|]. exists tk, ms. by rewrite <- Hparse.
  - intros tk ms Hin Hnc Hparse Hday.
    assert (Hrel : (tk, Some (DateMs ms))
                   ∈ relevantTasks parseDate localMidnight now tasks).
    { unfold relevantTasks. apply list_elem_of_In, filter_In. split.
      - apply in_map_iff. exists tk. split; [by rewrite Hparse|].
        apply filter_In. split; [by apply list_elem_of_In|by rewrite Hnc].
      - cbn. by apply Z.leb_le. }
    apply list_elem_of_lookup in Hrel as [i Hi].
    destruct (Forall2_lookup_l _ _ _ _ _ Hfmt Hi) as (t & Ht & Hf).
    exists t. split.
    + rewrite sort_perm. by eapply list_elem_of_lookup_2.
    + unfold formatTodo in Hf. cbn in Hf. injection Hf as <-. by cbn.
  - rewrite sort_perm. symmetry. by eapply Forall2_length.
  - rewrite sort_perm, <- (Forall2_length _ _ _ Hfmt).
    unfold relevantTasks.
    etrans; [apply filter_shorter|]. rewrite length_map. apply filter_shorter.
Qed.

Lemma todos_provenance_witness :
  length Samples.inboxTodos = 3%nat
  /\ (forall t, t ∈ Samples.inboxTodos -> todo_done t = false).
Proof.
  destruct (todos_provenance Samples.parseKnown Samples.utcMidnight (Some "token")
              Samples.noon Samples.inbox eq_refl) as (Hall & _ & Hlen & _).
  split.
  - unfold Samples.inboxTodos. rewrite Hlen. vm_compute. reflexivity.
  - intros t Hin. by destruct (Hall t Hin).
Defined.

Lemma formatTodo_fields now tk dueDate t :
  formatTodo now (tk, dueDate) = Some t ->
  todo_id t = task_id tk /\ todo_text t = task_content tk.
Proof.
  unfold formatTodo. destruct dueDate as [[ms|]|]; cbn; intros [= <-]; done.
Qed.

Lemma utcMidnight_mono (a b : Z) :
  a <= b -> Samples.utcMidnight a <= Samples.utcMidnight b.
Proof.
  intros Hab. unfold Samples.utcMidnight.
  rewrite (Z.mod_eq a 86400000), (Z.mod_eq b 86400000) by lia.
  pose proof (Z.div_le_mono a b 86400000 ltac:(lia) Hab). lia.
Qed.

(** X19: on a host whose local midnight grows with the instant, every task
    of the answer that is not completed and already due is listed, flagged
    urgent. *)
Theorem overdue_is_listed (parseDate : string -> jsdate) (localMidnight : Z -> Z)
        (apiToken : option string) (now : Z) (tasks : list task)
        (tk : task) (ms : Z) :
  WeatherAggregator.truthyString apiToken = true ->
  (forall a b, a <= b -> localMidnight a <= localMidnight b) ->
  tk ∈ tasks -> task_isCompleted tk = false ->
  parseDueDate parseDate (task_due tk) = Some (DateMs ms) ->
  ms <= now ->
  exists t,
    t ∈ getTodos parseDate localMidnight apiToken now (TasksOk (Some tasks))
    /\ todo_id t = task_id tk /\ todo_text t = task_content tk
    /\ todo_urgent t = true /\ todo_dueDate t = Some ms.
Proof.
  intros Htok Hmono Hin Hnc Hparse Hdue.
  destruct (getTodos_listed parseDate localMidnight apiToken now tasks Htok)
    as (formatted & Hfmt & ->).
  assert (Hrel : (tk, Some (DateMs ms))
                 ∈ relevantTasks parseDate localMidnight now tasks).
  { unfold relevantTasks. apply list_elem_of_In, filter_In. split.
    - apply in_map_iff. exists tk. split; [by rewrite Hparse|].
      apply filter_In. split; [by apply list_elem_of_In|by rewrite Hnc].
    - cbn. apply Z.leb_le. by apply Hmono. }
  apply list_elem_of_lookup in Hrel as [i Hi].
  destruct (Forall2_lookup_l _ _ _ _ _ Hfmt Hi) as (t & Ht & Hf).
  exists t. split; [rewrite sort_perm; by eapply list_elem_of_lookup_2|].
  destruct (formatTodo_flags _ _ _ _ Hf) as [Hurgent Hdate].
  destruct (formatTodo_fields _ _ _ _ Hf) as [Hid Htext].
  split; [exact Hid|]. split; [exact Htext|]. split; [|exact Hdate].
  rewrite Hurgent. apply isTaskUrgent_iff. exists ms.
  split; [done|]. unfold twoHours. lia.
Qed.

Lemma overdue_is_listed_witness :
  exists t, t ∈ Samples.inboxTodos /\ todo_text t = "Pay rent"
            /\ todo_urgent t = true.
Proof.
  destruct (overdue_is_listed Samples.parseKnown Samples.utcMidnight (Some "token")
              Samples.noon Samples.inbox
              (Samples.mkTask "3" "Pay rent" 4 (Samples.dueOn "2025-10-01") false)
              (Samples.noon - 36 * 3600000)
              eq_refl utcMidnight_mono) as (t & Hin & _ & Htext & Hurgent & _).
  - unfold Samples.inbox. do 2 apply list_elem_of_further. apply list_elem_of_here.
  - reflexivity.
  - reflexivity.
  - lia.
  - exists t. by split.
Defined.

(** C10: a task is flagged urgent exactly when it has a due instant that
    lies at most two hours after the clock; so overdue tasks are urgent and
    tasks without a due date are not.  [getTodos] applies this rule to the
    due date of the task each entry is made from: with a token and an answer
    from Todoist, every entry carries the instant its task's due date parses
    to and is urgent exactly when that instant lies at most two hours after
    the clock, and every task that is not completed and due today or earlier
    is listed with that instant and that flag.  The three sample tasks that
    stand in for a missing token or a failed request are due one, four and
    four hours after the clock, and only the first is urgent. *)
Theorem urgent_flag_rule :
  (forall now dueDate,
      isTaskUrgent now dueDate = true
      <-> exists ms, dueDate = Some (DateMs ms) /\ ms - now <= 2 * 60 * 60 * 1000)
  /\ (forall now ms, ms < now -> isTaskUrgent now (Some (DateMs ms)) = true)
  /\ (forall now, isTaskUrgent now None = false)
  /\ (forall parseDate localMidnight apiToken now up t,
      t ∈ getTodos parseDate localMidnight apiToken now up ->
      (todo_urgent t = true
       <-> exists ms, todo_dueDate t = Some ms /\ ms - now <= 2 * 60 * 60 * 1000))
  /\ (forall parseDate localMidnight apiToken now tasks,
      WeatherAggregator.truthyString apiToken = true ->
      let out := getTodos parseDate localMidnight apiToken now (TasksOk (Some tasks)) in
      (forall t, t ∈ out ->
         exists tk ms,
           tk ∈ tasks
           /\ todo_id t = task_id tk /\ todo_text t = task_content tk
           /\ parseDueDate parseDate (task_due tk) = Some (DateMs ms)
           /\ todo_dueDate t = Some ms
           /\ (todo_urgent t = true <-> ms - now <= 2 * 60 * 60 * 1000))
      /\ (forall tk ms,
            tk ∈ tasks -> task_isCompleted tk = false ->
            parseDueDate parseDate (task_due tk) = Some (DateMs ms) ->
            localMidnight ms <= localMidnight now ->
            exists t,
              t ∈ out
              /\ todo_id t = task_id tk /\ todo_text t = task_content tk
              /\ todo_dueDate t = Some ms
              /\ (todo_urgent t = true <-> ms - now <= 2 * 60 * 60 * 1000)))
  /\ (forall now,
      List.map (fun t => (todo_urgent t, todo_dueDate t)) (getMockTodos now)
      = [ (true, Some (now + 60 * 60 * 1000));
          (false, Some (now + 4 * 60 * 60 * 1000));
          (false, Some (now + 4 * 60 * 60 * 1000)) ]).
Proof.
  change (2 * 60 * 60 * 1000) with twoHours.
  assert (Hinstant : forall now ms,
             isTaskUrgent now (Some (DateMs ms)) = true <-> ms - now <= twoHours).
  { intros now ms. rewrite isTaskUrgent_iff. split.
    - by intros (ms' & [= <-] & Hle).
    - intros Hle. by exists ms. }
  split; [exact isTaskUrgent_iff|]. split; [|split; [done|split; [|split; [|done]]]].
  - intros now ms Hlt. apply Hinstant. unfold twoHours. lia.
  - intros parseDate localMidnight apiToken now up t.
    unfold getTodos.
    destruct (negb _); [apply mock_flags|].
    destruct up as [[[|t0 ts]|]|msg];
      [by intros ?%elem_of_nil| |by intros ?%elem_of_nil|apply mock_flags].
    destruct (mapM _ _) as [formatted|] eqn:Hm; [|apply mock_flags].
    intros Hin%elem_of_sort.
    apply mapM_Some in Hm.
    destruct (Forall2_preimage _ _ _ _ Hm Hin) as ([tk dueDate] & _ & Hfmt).
    destruct (formatTodo_flags _ _ _ _ Hfmt) as [-> ->].
    rewrite isTaskUrgent_iff. split.
    + intros (ms & -> & Hle). by exists ms.
    + intros (ms & Hdue & Hle). exists ms. split; [|done].
      destruct dueDate as [[ms'|]|]; by inversion Hdue.
  - intros parseDate localMidnight apiToken now tasks Htok out. subst out.
    destruct (getTodos_listed parseDate localMidnight apiToken now tasks Htok)
      as (formatted & Hfmt & ->).
    split.
    + intros t Hin. rewrite sort_perm in Hin.
      destruct (Forall2_preimage _ _ _ _ Hfmt Hin) as ([tk d] & Hrel & Hf).
      apply relevant_has_instant in Hrel as (Htk & _ & Hparse & ms & Hd & _).
      cbn in Htk, Hparse, Hd. rewrite Hd in Hf, Hparse.
      destruct (formatTodo_flags _ _ _ _ Hf) as [Hurgent Hdate].
      destruct (formatTodo_fields _ _ _ _ Hf) as [Hid Htext].
      exists tk, ms. split; [exact Htk|]. split; [exact Hid|]. split; [exact Htext|].
      split; [by rewrite <- Hparse|]. split; [exact Hdate|].
      rewrite Hurgent. apply Hinstant.
    + intros tk ms Hin Hnc Hparse Hday.
      assert (Hrel : (tk, Some (DateMs ms))
                     ∈ relevantTasks parseDate localMidnight now tasks).
      { unfold relevantTasks. apply list_elem_of_In, filter_In. split.
        - apply in_map_iff. exists tk. split; [by rewrite Hparse|].
          apply filter_In. split; [by apply list_elem_of_In|by rewrite Hnc].
        - cbn. by apply Z.leb_le. }
      apply list_elem_of_lookup in Hrel as [i Hi].
      destruct (Forall2_lookup_l _ _ _ _ _ Hfmt Hi) as (t & Ht & Hf).
      destruct (formatTodo_flags _ _ _ _ Hf) as [Hurgent Hdate].
      destruct (formatTodo_fields _ _ _ _ Hf) as [Hid Htext].
      exists t. split; [rewrite sort_perm; by eapply list_elem_of_lookup_2|].
      split; [exact Hid|]. split; [exact Htext|]. split; [exact Hdate|].
      rewrite Hurgent. apply Hinstant.
Qed.

(** The rule read off on a real answer: the rent due since yesterday is
    listed with its due instant and urgent; the report due in five hours is
    listed with its due instant and not urgent. *)
Lemma urgent_flag_rule_witness :
  (exists t, t ∈ Samples.inboxTodos
             /\ todo_text t = "Pay rent"
             /\ todo_dueDate t = Some (Samples.noon - 36 * 3600000)
             /\ todo_urgent t = true)
  /\ (exists t, t ∈ Samples.inboxTodos
                /\ todo_text t = "Write report"
                /\ todo_dueDate t = Some (Samples.noon + 5 * 3600000)
                /\ todo_urgent t = false).
Proof.
  destruct urgent_flag_rule as (_ & _ & _ & _ & Hlisted & _).
  destruct (Hlisted Samples.parseKnown Samples.utcMidnight (Some "token") Samples.noon
              Samples.inbox eq_refl) as [_ Hall].
  split.
  - destruct (Hall (Samples.mkTask "3" "Pay rent" 4 (Samples.dueOn "2025-10-01") false)
                (Samples.noon - 36 * 3600000))
      as (t & Hin & _ & Htext & Hdate & Hflag).
    + unfold Samples.inbox. do 2 apply list_elem_of_further. apply list_elem_of_here.
    + reflexivity.
    + reflexivity.
    + by vm_compute.
    + exists t. split; [exact Hin|]. split; [exact Htext|]. split; [exact Hdate|].
      apply Hflag. by vm_compute.
  - destruct (Hall (Samples.mkTask "1" "Write report" 1
                      (Samples.dueAt "2025-10-02T17:00:00Z") false)
                (Samples.noon + 5 * 3600000))
      as (t & Hin & _ & Htext & Hdate & Hflag).
    + unfold Samples.inbox. apply list_elem_of_here.
    + reflexivity.
    + reflexivity.
    + by vm_compute.
    + exists t. split; [exact Hin|]. split; [exact Htext|]. split; [exact Hdate|].
      destruct (todo_urgent t); [|reflexivity].
      pose proof (proj1 Hflag eq_refl) as Hle. by vm_compute in Hle.
Defined.

End TodoList.

(** ** Calendar *)
Section Calendar.
Import ModeManager CalendarAggregator.
Import TodoAggregator (jsdate, DateMs, InvalidDate).

Variable parseDate : string -> jsdate.
Variable getHours : Z -> Z.
Variable getMinutes : Z -> Z.

Abbreviation getCalendarData := (getCalendarData parseDate getHours getMinutes).
Abbreviation parseCalendarEvent := (parseCalendarEvent parseDate).
Abbreviation agendaEntry := (agendaEntry getHours getMinutes).
Abbreviation formatTime := (formatTime getHours getMinutes).

(** X20: without a calendar id, when the request fails, when the answer is
    empty, and also when a single event of the answer lacks [start] or
    [end], the calendar contributes no next event and an empty agenda: one
    malformed event voids the whole answer.  This holds whatever the clock
    reads during the call. *)
Theorem calendar_degrades (calendarId : option string) (now nowMinutes : Z)
        (nowDone : nat -> Z) :
  (forall up, WeatherAggregator.truthyString calendarId = false ->
              getCalendarData calendarId now nowMinutes nowDone up = noCalendarData)
  /\ (forall msg, getCalendarData calendarId now nowMinutes nowDone (EventsFailed msg)
                  = noCalendarData)
  /\ getCalendarData calendarId now nowMinutes nowDone (EventsOk []) = noCalendarData
  /\ (forall events e,
        e ∈ events -> raw_start e = None \/ raw_end e = None ->
        getCalendarData calendarId now nowMinutes nowDone (EventsOk events)
        = noCalendarData).
Proof.
  unfold CalendarAggregator.getCalendarData.
  split; [|split; [|split]].
  - intros up ->. reflexivity.
  - intros msg. by destruct (negb _).
  - by destruct (negb _).
  - intros events e Hin Hbad. destruct (negb _); [done|].
    destruct events as [|e0 events]; [done|].
    destruct (mapM parseCalendarEvent (e0 :: events)) as [parsed|] eqn:Hm; [|done].
    exfalso.
    assert (Hall : Forall (is_Some ∘ parseCalendarEvent) (e0 :: events)).
    { apply mapM_is_Some. by eexists. }
    rewrite Forall_forall in Hall. destruct (Hall e Hin) as [pe Hpe].
    unfold CalendarAggregator.parseCalendarEvent in Hpe.
    destruct Hbad as [Hb|Hb].
    + rewrite Hb in Hpe. discriminate.
    + rewrite Hb in Hpe. destruct (raw_start e); discriminate.
Qed.

Lemma head_startsAfter now parsed e :
  head (List.filter (startsAfter now) parsed) = Some e ->
  exists ms, pe_startTime e = DateMs ms /\ now < ms.
Proof.
  intros Hhead. apply head_Some_elem_of, list_elem_of_In, filter_In in Hhead as [_ Hafter].
  unfold startsAfter in Hafter.
  destruct (pe_startTime e) as [ms|]; [|discriminate].
  exists ms. split; [done|]. by apply Z.ltb_lt.
Qed.

Lemma startsAfter_false now pe :
  startsAfter now pe = false
  <-> forall ms, pe_startTime pe = DateMs ms -> ms <= now.
Proof.
  unfold startsAfter. destruct (pe_startTime pe) as [ms|].
  - rewrite Z.ltb_ge. split; [by intros H ms' [= <-]|by intros H; apply H].
  - split; [by intros _ ms [=]|done].
Qed.

(** With an id and a well-formed, non-empty answer, the agenda is the
    answer's events, one entry each, the [i]-th made at the clock reading
    [nowDone i]. *)
Lemma getCalendarData_agenda calendarId now nowMinutes nowDone events parsed :
  WeatherAggregator.truthyString calendarId = true ->
  events <> [] ->
  mapM parseCalendarEvent events = Some parsed ->
  cal_agenda (getCalendarData calendarId now nowMinutes nowDone (EventsOk events))
  = imap (fun i event => agendaEntry (nowDone i) event) parsed.
Proof.
  intros Hid Hne Hm. unfold CalendarAggregator.getCalendarData.
  rewrite Hid. cbn [negb]. destruct events as [|e0 events]; [done|].
  rewrite Hm. cbv zeta.
  destruct (head (List.filter (startsAfter now) parsed)) as [e|] eqn:Hhead; [|done].
  destruct (head_startsAfter _ _ _ Hhead) as (ms & -> & _). reflexivity.
Qed.

(** X21: with an id and an answer whose events all have [start] and [end],
    the agenda has one entry per event, in the order of the answer.  The
    entry of an event carries the event's summary as title, '(No title)'
    when there is none, and its location, '' when there is none; it is
    all-day exactly when the event has no [start.dateTime], and then its
    time is 'All Day', otherwise [formatTime] of the start instant, which is
    parsed from [start.dateTime]; it is done exactly when the event's end,
    parsed from [end.dateTime] or else [end.date], is a valid instant before
    the clock reading [isEventDone] takes for that entry. *)
Theorem agenda_one_per_event (calendarId : option string) (now nowMinutes : Z)
        (nowDone : nat -> Z) (events : list rawEvent) :
  WeatherAggregator.truthyString calendarId = true ->
  (forall e, e ∈ events -> is_Some (raw_start e) /\ is_Some (raw_end e)) ->
  let agenda :=
    cal_agenda (getCalendarData calendarId now nowMinutes nowDone (EventsOk events)) in
  let instantOf (t : eventTime) :=
    if WeatherAggregator.truthyString (dateTime t)
    then from_option parseDate InvalidDate (dateTime t)
    else from_option parseDate InvalidDate (date t) in
  length agenda = length events
  /\ (forall i e start end_,
        events !! i = Some e ->
        raw_start e = Some start -> raw_end e = Some end_ ->
        exists item,
          agenda !! i = Some item
          /\ ag_title item
             = (if WeatherAggregator.truthyString (raw_summary e)
                then default "" (raw_summary e) else "(No title)")
          /\ ag_location item
             = (if WeatherAggregator.truthyString (raw_location e)
                then default "" (raw_location e) else "")
          /\ ag_isAllDay item = negb (WeatherAggregator.truthyString (dateTime start))
          /\ ag_time item
             = (if WeatherAggregator.truthyString (dateTime start)
                then formatTime (instantOf start) else "All Day")
          /\ (ag_done item = true <->
              exists ms, instantOf end_ = DateMs ms /\ ms < nowDone i)).
Proof.
  intros Hid Hwell agenda instantOf.
  assert (Hsome : is_Some (mapM parseCalendarEvent events)).
  { apply mapM_is_Some, Forall_forall. intros e Hin.
    destruct (Hwell e Hin) as [[st Hst] [en Hen]].
    unfold CalendarAggregator.parseCalendarEvent. cbn. rewrite Hst, Hen. by eexists. }
  destruct Hsome as [parsed Hm].
  assert (Hagenda : agenda = imap (fun i event => agendaEntry (nowDone i) event) parsed).
  { subst agenda. destruct events as [|e0 events].
    - cbn in Hm. injection Hm as <-.
      unfold CalendarAggregator.getCalendarData. by destruct (negb _).
    - by apply getCalendarData_agenda. }
  assert (Hinstant : forall t, dateOf parseDate t = instantOf t).
  { intros t. unfold dateOf, instantOf.
    destruct (WeatherAggregator.truthyString (dateTime t)).
    - by destruct (dateTime t).
    - by destruct (date t). }
  apply mapM_Some in Hm.
  split.
  - rewrite Hagenda, length_imap. symmetry. by eapply Forall2_length.
  - intros i e start end_ Hi Hstart Hend.
    destruct (Forall2_lookup_l _ _ _ _ _ Hm Hi) as (pe & Hpe & Hparse).
    unfold CalendarAggregator.parseCalendarEvent in Hparse.
    rewrite Hstart, Hend in Hparse. cbn in Hparse. injection Hparse as <-.
    exists (agendaEntry (nowDone i)
              {| pe_title := if WeatherAggregator.truthyString (raw_summary e)
                             then default "" (raw_summary e) else "(No title)";
                 pe_location := if WeatherAggregator.truthyString (raw_location e)
                                then default "" (raw_location e) else "";
                 pe_startTime := dateOf parseDate start;
                 pe_endTime := dateOf parseDate end_;
                 pe_isAllDay := negb (WeatherAggregator.truthyString (dateTime start)) |}).
    split; [by rewrite Hagenda, list_lookup_imap, Hpe|].
    split; [reflexivity|]. split; [reflexivity|]. split; [reflexivity|].
    cbn. rewrite (Hinstant start), (Hinstant end_). split.
    + by destruct (WeatherAggregator.truthyString (dateTime start)).
    + unfold isEventDone. destruct (instantOf end_) as [ms|].
      * rewrite Z.ltb_lt. split; [by exists ms|by intros (ms' & [= <-] & ?)].
      * split; [discriminate|by intros (ms' & [=] & _)].
Qed.

Lemma head_filter_Some {A} (f : A -> bool) (l : list A) (x : A) :
  head (List.filter f l) = Some x ->
  exists i, l !! i = Some x /\ f x = true
            /\ forall j y, (j < i)%nat -> l !! j = Some y -> f y = false.
Proof.
  induction l as [|y l IH]; cbn; [discriminate|].
  destruct (f y) eqn:Hy; cbn.
  - intros [= <-]. exists 0%nat. split; [done|]. split; [done|]. intros j z Hj. lia.
  - intros Hhead. destruct (IH Hhead) as (i & Hi & Hfx & Hbefore).
    exists (S i). split; [done|]. split; [done|].
    intros [|j] z Hj; cbn; [by intros [= <-]|].
    apply Hbefore. lia.
Qed.

Lemma head_filter_None {A} (f : A -> bool) (l : list A) :
  head (List.filter f l) = None <-> forall x, x ∈ l -> f x = false.
Proof.
  induction l as [|y l IH]; cbn.
  - split; [by intros _ x ?%elem_of_nil|done].
  - destruct (f y) eqn:Hy; cbn.
    + split; [discriminate|]. intros Hall.
      rewrite (Hall y) in Hy; [discriminate|apply list_elem_of_here].
    + rewrite IH. split.
      * intros Hall x [->|Hin]%elem_of_cons; [done|by apply Hall].
      * intros Hall x Hin. by apply Hall, list_elem_of_further.
Qed.

(** X22: with an id and a well-formed answer, the next event is the first
    event of the answer, in the answer's order, whose start is a valid
    instant after the clock reading [now] of the selection, and there is
    none exactly when no event has such a start.  Its time is [formatTime]
    of the start, and its [minutesUntil] is counted from the later reading
    [nowMinutes] that [getMinutesUntil] takes: the whole minutes from that
    reading to the start, rounded down.  It is therefore negative exactly
    when the clock has passed the start between the two readings; when the
    clock has advanced by less than a minute it is at least -1, and it never
    exceeds the whole minutes left at the selection. *)
Theorem next_event_is_first_upcoming (calendarId : option string)
        (now nowMinutes : Z) (nowDone : nat -> Z)
        (events : list rawEvent) (parsed : list parsedEvent) :
  WeatherAggregator.truthyString calendarId = true ->
  mapM parseCalendarEvent events = Some parsed ->
  let next :=
    cal_nextEvent (getCalendarData calendarId now nowMinutes nowDone (EventsOk events)) in
  (next = None
   <-> forall pe ms, pe ∈ parsed -> pe_startTime pe = DateMs ms -> ms <= now)
  /\ (forall ne, next = Some ne ->
        now < ne_startTime ne
        /\ ne_minutesUntil ne = (ne_startTime ne - nowMinutes) / 60000
        /\ 60000 * ne_minutesUntil ne <= ne_startTime ne - nowMinutes
           < 60000 * (ne_minutesUntil ne + 1)
        /\ (0 <= ne_minutesUntil ne <-> nowMinutes <= ne_startTime ne)
        /\ (now <= nowMinutes ->
            ne_minutesUntil ne <= (ne_startTime ne - now) / 60000)
        /\ (nowMinutes < now + 60000 -> -1 <= ne_minutesUntil ne)
        /\ ne_time ne = formatTime (DateMs (ne_startTime ne))
        /\ exists i pe,
            parsed !! i = Some pe
            /\ pe_startTime pe = DateMs (ne_startTime ne)
            /\ ne_title ne = pe_title pe
            /\ ne_location ne = pe_location pe
            /\ forall j pe' ms, (j < i)%nat -> parsed !! j = Some pe' ->
                                pe_startTime pe' = DateMs ms -> ms <= now).
Proof.
  intros Hid Hm next. subst next. unfold CalendarAggregator.getCalendarData.
  rewrite Hid. cbn [negb].
  destruct events as [|e0 events].
  { cbn in Hm. injection Hm as <-. cbn. split.
    - split; [by intros _ pe ms ?%elem_of_nil|done].
    - discriminate. }
  rewrite Hm. cbv zeta.
  destruct (head (List.filter (startsAfter now) parsed)) as [e|] eqn:Hhead.
  - destruct (head_startsAfter _ _ _ Hhead) as (ms & Hstart & Hlt).
    rewrite Hstart. cbn [getMinutesUntil cal_nextEvent]. split.
    + split; [discriminate|]. intros Hnone.
      apply head_Some_elem_of in Hhead.
      apply list_elem_of_In, filter_In in Hhead as [Hin _].
      apply list_elem_of_In in Hin.
      specialize (Hnone e ms Hin Hstart). lia.
    + intros ne [= <-]. cbn.
      pose proof (Z.mul_div_le (ms - nowMinutes) 60000 ltac:(lia)) as Hlo.
      pose proof (Z.mul_succ_div_gt (ms - nowMinutes) 60000 ltac:(lia)) as Hhi.
      split; [exact Hlt|]. split; [reflexivity|].
      split; [lia|]. split; [split; intros; [lia|apply Z.div_pos; lia]|].
      split; [intros Hclock; apply Z.div_le_mono; lia|].
      split; [intros Hclock; lia|]. split; [reflexivity|].
      destruct (head_filter_Some _ _ _ Hhead) as (i & Hi & _ & Hbefore).
      exists i, e. rewrite Hstart. repeat (split; [done|]).
      intros j pe' ms' Hj Hpe' Hstart'.
      by apply (proj1 (startsAfter_false now pe') (Hbefore j pe' Hj Hpe')).
  - cbn [cal_nextEvent]. split; [|discriminate].
    split; [|done]. intros _ pe ms Hin Hstart.
    pose proof (proj1 (head_filter_None _ _) Hhead pe Hin) as Hnot.
    by apply (proj1 (startsAfter_false now pe) Hnot).
Qed.

End Calendar.

Section CalendarSamples.
Import ModeManager CalendarAggregator.

Example calendar_today :
  let c := Samples.calendarAt Samples.noon Samples.today in
  (ne_title <$> cal_nextEvent c, ne_time <$> cal_nextEvent c,
   ne_minutesUntil <$> cal_nextEvent c)
  = (Some "Design review", Some "2:00 PM", Some 120)
  /\ List.map (fun item => (ag_time item, ag_title item, ag_done item)) (cal_agenda c)
     = [ ("9:00 AM", "Standup", true);
         ("2:00 PM", "Design review", false);
         ("All Day", "(No title)", false) ].
Proof. split; vm_compute; reflexivity. Qed.

(** One millisecond before the design review starts it is still selected as
    the next event; the clock then moves on by five milliseconds, and
    [getMinutesUntil] counts from after the start. *)
Example calendar_clock_moves :
  let c := Samples.calendarTicking (Samples.noon + 2 * 3600000 - 1) 5 Samples.today in
  (ne_title <$> cal_nextEvent c, ne_minutesUntil <$> cal_nextEvent c)
  = (Some "Design review", Some (-1)).
Proof. vm_compute. reflexivity. Qed.

(** On the sample day the design review is entry 1, timed, shown at its
    start, and the untitled event is entry 2, all-day. *)
Lemma agenda_one_per_event_witness :
  length (cal_agenda (Samples.calendarAt Samples.noon Samples.today)) = 3%nat
  /\ (exists item,
        cal_agenda (Samples.calendarAt Samples.noon Samples.today) !! 1%nat = Some item
        /\ ag_title item = "Design review"
        /\ ag_isAllDay item = false /\ ag_time item = "2:00 PM"
        /\ ag_done item = false)
  /\ (exists item,
        cal_agenda (Samples.calendarAt Samples.noon Samples.today) !! 2%nat = Some item
        /\ ag_title item = "(No title)"
        /\ ag_isAllDay item = true /\ ag_time item = "All Day").
Proof.
  pose proof (agenda_one_per_event Samples.parseCalendarString Samples.utcHours
                Samples.utcMinutes (Some "primary") Samples.noon Samples.noon
                (fun _ => Samples.noon) Samples.today eq_refl) as Hspec.
  destruct Hspec as [Hlen Hentries].
  { intros e. unfold Samples.today. rewrite !elem_of_cons, elem_of_nil.
    intros [->|[->|[->|[]]]]; split; by eexists. }
  split; [exact Hlen|]. split.
  - destruct (Hentries 1%nat _ _ _ eq_refl eq_refl eq_refl)
      as (item & Hitem & Htitle & _ & Hall & Htime & Hdone).
    exists item. split; [exact Hitem|]. split; [exact Htitle|].
    split; [exact Hall|]. split; [exact Htime|].
    destruct (ag_done item); [|reflexivity].
    destruct (proj1 Hdone eq_refl) as (ms & Hms & Hlt).
    vm_compute in Hms. injection Hms as <-. by vm_compute in Hlt.
  - destruct (Hentries 2%nat _ _ _ eq_refl eq_refl eq_refl)
      as (item & Hitem & Htitle & _ & Hall & Htime & _).
    exists item. by repeat split.
Defined.

(** At noon the next event is the design review, two hours away; one
    millisecond before its start it is still the next event, and when the
    clock passes the start before [getMinutesUntil] reads it, the count is
    -1. *)
Lemma next_event_is_first_upcoming_witness :
  (exists ne,
      cal_nextEvent (Samples.calendarAt Samples.noon Samples.today) = Some ne
      /\ Samples.noon < ne_startTime ne /\ ne_minutesUntil ne = 120)
  /\ (exists ne,
        cal_nextEvent (Samples.calendarTicking (Samples.noon + 2 * 3600000 - 1) 5
                         Samples.today) = Some ne
        /\ Samples.noon + 2 * 3600000 - 1 < ne_startTime ne
        /\ ~ 0 <= ne_minutesUntil ne).
Proof.
  destruct (mapM (parseCalendarEvent Samples.parseCalendarString) Samples.today)
    as [parsed|] eqn:Hm; [|by vm_compute in Hm].
  split.
  - destruct (next_event_is_first_upcoming Samples.parseCalendarString Samples.utcHours
                Samples.utcMinutes (Some "primary") Samples.noon Samples.noon
                (fun _ => Samples.noon) Samples.today parsed eq_refl Hm) as [_ Hnext].
    destruct (cal_nextEvent (Samples.calendarAt Samples.noon Samples.today))
      as [ne|] eqn:Hne; [|by vm_compute in Hne].
    exists ne. split; [reflexivity|].
    destruct (Hnext ne Hne) as (Hlt & Hmin & _). split; [exact Hlt|].
    rewrite Hmin. vm_compute in Hne. injection Hne as <-. reflexivity.
  - destruct (next_event_is_first_upcoming Samples.parseCalendarString Samples.utcHours
                Samples.utcMinutes (Some "primary")
                (Samples.noon + 2 * 3600000 - 1) (Samples.noon + 2 * 3600000 - 1 + 5)
                (fun i => Samples.noon + 2 * 3600000 - 1 + 5 * (2 + Z.of_nat i))
                Samples.today parsed eq_refl Hm) as [_ Hnext].
    destruct (cal_nextEvent (Samples.calendarTicking (Samples.noon + 2 * 3600000 - 1) 5
                               Samples.today))
      as [ne|] eqn:Hne; [|by vm_compute in Hne].
    exists ne. split; [reflexivity|].
    destruct (Hnext ne Hne) as (Hlt & _ & _ & Hsign & _). split; [exact Hlt|].
    intros Hpos. apply Hsign in Hpos.
    vm_compute in Hne. injection Hne as <-. by vm_compute in Hpos.
Defined.

End CalendarSamples.

(** ** Clock faces and cron expressions *)
Section Rendering.
Import CalendarAggregator.

Lemma length_append (s t : string) :
  String.length (s +:+ t) = (String.length s + String.length t)%nat.
Proof. induction s as [|a s IH]; simpl; [done|]. by rewrite IH. Qed.

Lemma append_cancel_r (s1 s2 t : string) : s1 +:+ t = s2 +:+ t -> s1 = s2.
Proof.
  revert s2. induction s1 as [|a s1 IH]; intros [|b s2] Heq; [done| | |].
  - apply (f_equal String.length) in Heq.
    rewrite !length_append in Heq. simpl in Heq. lia.
  - apply (f_equal String.length) in Heq.
    rewrite !length_append in Heq. simpl in Heq. lia.
  - simpl in Heq. injection Heq as -> Heq. by rewrite (IH _ Heq).
Qed.

Lemma NoDup_fmap_inj {A B} (f : A -> B) (l : list A) x y :
  NoDup (f <$> l) -> x ∈ l -> y ∈ l -> f x = f y -> x = y.
Proof.
  induction l as [|z l IH]; cbn; [by intros _ ?%elem_of_nil|].
  intros [Hz Hl]%NoDup_cons [->|Hx]%elem_of_cons [->|Hy]%elem_of_cons Heq.
  - done.
  - destruct Hz. rewrite Heq. by apply list_elem_of_fmap_2.
  - destruct Hz. rewrite <- Heq. by apply list_elem_of_fmap_2.
  - by apply IH.
Qed.

Lemma clock_faces_distinct :
  NoDup ((fun hm : Z * Z => formatClock hm.1 hm.2) <$> timesOfDay).
Proof. apply (bool_decide_unpack _). vm_compute. exact I. Qed.

(** X23: [formatTime] is faithful on times of day: two different
    (hour, minute) pairs of a 24-hour day are never rendered alike. *)
Theorem formatClock_distinct (h m h' m' : Z) :
  0 <= h < 24 -> 0 <= m < 60 -> 0 <= h' < 24 -> 0 <= m' < 60 ->
  formatClock h m = formatClock h' m' -> h = h' /\ m = m'.
Proof.
  intros Hh Hm Hh' Hm' Heq.
  assert (Hin : forall a b, 0 <= a < 24 -> 0 <= b < 60 -> (a, b) ∈ timesOfDay).
  { intros a b Ha Hb. apply list_elem_of_cprod. cbn.
    split; apply elem_of_seqZ; lia. }
  pose proof (NoDup_fmap_inj (fun hm : Z * Z => formatClock hm.1 hm.2) timesOfDay
                (h, m) (h', m') clock_faces_distinct
                (Hin h m Hh Hm) (Hin h' m' Hh' Hm') Heq) as Hpair.
  by injection Hpair.
Qed.

Lemma formatClock_distinct_witness :
  formatClock 14 5 = "2:05 PM" /\ formatClock 2 5 <> formatClock 14 5.
Proof.
  split; [reflexivity|]. intros Heq.
  destruct (formatClock_distinct 2 5 14 5 ltac:(lia) ltac:(lia) ltac:(lia)
              ltac:(lia) Heq) as [Habs _].
  discriminate Habs.
Defined.

(** X24: for an interval of one minute or more, within the integers a
    JavaScript number holds exactly, the cron expression keeps only the whole
    minutes of the interval: two intervals give the same schedule exactly
    when they have the same number of whole minutes, so 90 seconds is
    scheduled like 60. *)
Theorem cron_whole_minutes (seconds seconds' : Z) :
  60 <= seconds <= Scheduler.MAX_SAFE_INTEGER ->
  60 <= seconds' <= Scheduler.MAX_SAFE_INTEGER ->
  Scheduler.getCronExpression seconds
  = Some ("*/" +:+ pretty (seconds / 60) +:+ " * * * *")
  /\ Scheduler.getCronExpression seconds
     = Scheduler.getCronExpression (60 * (seconds / 60))
  /\ (Scheduler.getCronExpression seconds = Scheduler.getCronExpression seconds'
      <-> seconds / 60 = seconds' / 60).
Proof.
  intros Hs Hs'.
  assert (Hform : forall x, 60 <= x <= Scheduler.MAX_SAFE_INTEGER ->
             Scheduler.getCronExpression x
             = Some ("*/" +:+ pretty (x / 60) +:+ " * * * *")).
  { intros x Hx. unfold Scheduler.getCronExpression, Scheduler.isSafeInteger.
    assert (Hmax : 0 < Scheduler.MAX_SAFE_INTEGER) by reflexivity.
    destruct (Z.leb_spec (- Scheduler.MAX_SAFE_INTEGER) x); [|lia].
    destruct (Z.leb_spec x Scheduler.MAX_SAFE_INTEGER); [|lia].
    cbn [andb]. destruct (Z.ltb_spec x 60); [lia|done]. }
  assert (H1 : 1 <= seconds / 60) by (apply Z.div_le_lower_bound; lia).
  assert (H2 : 60 * (seconds / 60) <= seconds) by (apply Z.mul_div_le; lia).
  split; [by apply Hform|]. split.
  - rewrite (Hform seconds Hs), (Hform (60 * (seconds / 60))) by lia.
    by rewrite Z.mul_comm, Z.div_mul by lia.
  - rewrite (Hform seconds Hs), (Hform seconds' Hs'). split.
    + intros Heq. injection Heq as Heq.
      change ("" +:+ ?x) with x in Heq.
      apply append_cancel_r in Heq. by apply (inj pretty) in Heq.
    + by intros ->.
Qed.

Lemma cron_whole_minutes_witness :
  Scheduler.getCronExpression 90 = Scheduler.getCronExpression 60
  /\ Scheduler.getCronExpression 60 = Some "*/1 * * * *"
  /\ Scheduler.getCronExpression (Scheduler.REFRESH_INTERVAL None)
     = Some "*/30 * * * * *".
Proof.
  split; [|split; vm_compute; reflexivity].
  apply (cron_whole_minutes 90 60); [by vm_compute|by vm_compute|reflexivity].
Defined.

End Rendering.

(** ** Refresh cycle and routes *)
Section Cycle.
Import ModeManager Server.

Lemma getDashboardData_tag src m c :
  out_mode (Aggregators.filteredData (Aggregators.getDashboardData src m c)) = m.
Proof.
  unfold Aggregators.getDashboardData, filterByMode, Aggregators.fullData.
  cbn [Aggregators.filteredData fst].
  destruct (String.eqb_spec m "personal") as [->|_]; [done|].
  destruct (String.eqb_spec m "guest") as [->|_]; [done|].
  destruct (String.eqb_spec m "briefing") as [->|_]; [done|].
  destruct (String.eqb_spec m "weather") as [->|_]; [done|].
  destruct (String.eqb_spec m "art") as [->|_]; done.
Qed.

Lemma updateModes_sendDashboardUpdate readyState clock o h :
  updateModes (WsHandler.sendDashboardUpdate readyState clock o h) = [out_mode o].
Proof. reflexivity. Qed.

Lemma broadcasts_sendDashboardUpdate readyState clock o h :
  broadcasts "dashboard:update" (WsHandler.sendDashboardUpdate readyState clock o h)
  = 1%nat.
Proof. reflexivity. Qed.

Lemma refresh_modes src readyState p :
  updateModes (Scheduler.refreshDashboardData src readyState p).2
  = [Scheduler.getMode p].
Proof.
  unfold Scheduler.refreshDashboardData, Scheduler.getMode. cbn [snd].
  by rewrite updateModes_sendDashboardUpdate, getDashboardData_tag.
Qed.

Lemma getRefresh_default src1 src2 readyState p :
  exists d, (getRefresh None src1 src2 readyState p).1.1 = DataOk d
            /\ out_mode d = Scheduler.getMode p.
Proof.
  unfold getRefresh, Scheduler.triggerRefresh, Scheduler.refreshDashboardData.
  cbn [fst snd WeatherAggregator.truthyString].
  eexists. split; [reflexivity|]. apply getDashboardData_tag.
Qed.

Lemma received_broadcast readyState clock ev d h ws :
  received ws ev (WsHandler.broadcast readyState clock ev d h)
  = if bool_decide (ws ∈ openClients readyState h) then 1%nat else 0%nat.
Proof.
  unfold received, WsHandler.broadcast.
  fold (openClients readyState h). simpl List.filter. simpl WsHandler.event.
  rewrite String.eqb_refl. simpl andb.
  destruct (existsb (Nat.eqb ws) (openClients readyState h)) eqn:Hex.
  - apply existsb_exists in Hex as (x & Hin & <-%Nat.eqb_eq).
    rewrite bool_decide_eq_true_2; [done|by apply list_elem_of_In].
  - rewrite bool_decide_eq_false_2; [done|]. intros Hin.
    apply not_true_iff_false in Hex. apply Hex, existsb_exists.
    exists ws. split; [by apply list_elem_of_In|apply Nat.eqb_refl].
Qed.

(** X25: one refresh cycle, whether started by the timer, by
    [startScheduler] or by [triggerRefresh], ends in exactly one
    [dashboard:update] broadcast, tagged with the scheduler's current mode
    and addressed to the registered OPEN sockets; it changes neither the
    mode nor the set of connections. *)
Theorem refresh_cycle (src : Aggregators.sources) (readyState : nat -> nat)
        (p : process) :
  let r := Scheduler.refreshDashboardData src readyState p in
  sched r.1 = sched p
  /\ wsHandler r.1 = wsHandler p
  /\ broadcasts "dashboard:update" r.2 = 1%nat
  /\ updateModes r.2 = [Scheduler.getMode p]
  /\ (forall ws, received ws "dashboard:update" r.2
                 = if bool_decide (ws ∈ openClients readyState (wsHandler p))
                   then 1%nat else 0%nat)
  /\ Scheduler.triggerRefresh src readyState p = r
  /\ updateModes (Scheduler.startScheduler src readyState p).2 = [Scheduler.getMode p]
  /\ Scheduler.getMode (Scheduler.startScheduler src readyState p).1
     = Scheduler.getMode p.
Proof.
  cbn zeta. unfold Scheduler.refreshDashboardData, Scheduler.startScheduler,
    Scheduler.refreshDashboardData, Scheduler.getMode. cbn [fst snd sched wsHandler].
  split; [done|]. split; [done|]. split; [done|].
  rewrite !updateModes_sendDashboardUpdate, !getDashboardData_tag.
  split; [done|]. split; [|done].
  intros ws. unfold WsHandler.sendDashboardUpdate. apply received_broadcast.
Qed.

(** X26: GET /api/dashboard/refresh does not check the mode it is given:
    it always answers 200 with data tagged by the requested name (the
    scheduler's mode when none is given), and an unknown name gets the whole
    snapshot.  The broadcast it triggers carries the scheduler's mode, not the
    requested one, and the scheduler's mode stays as it was. *)
Theorem refresh_route_unchecked (queryMode : option string)
        (srcScheduler srcRoute : Aggregators.sources)
        (readyState : nat -> nat) (p : process) :
  let r := getRefresh queryMode srcScheduler srcRoute readyState p in
  (exists d, r.1.1 = DataOk d
             /\ out_mode d = (if WeatherAggregator.truthyString queryMode
                              then default "" queryMode
                              else Scheduler.getMode p))
  /\ status r.1.1 = 200%nat
  /\ (forall viewId, queryMode = Some viewId -> viewId <> "" ->
                     viewId ∉ getAvailableModes ->
                     exists data, r.1.1 = DataOk (FullView data) /\ mode data = viewId)
  /\ updateModes r.2 = [Scheduler.getMode p]
  /\ Scheduler.getMode r.1.2 = Scheduler.getMode p.
Proof.
  cbn zeta. unfold getRefresh, Scheduler.triggerRefresh,
    Scheduler.refreshDashboardData, Scheduler.getMode.
  cbn [fst snd sched]. split; [|split; [done|split; [|split; [|done]]]].
  - eexists. split; [reflexivity|]. apply getDashboardData_tag.
  - intros viewId -> Hne Hout.
    assert (Htruthy : WeatherAggregator.truthyString (Some viewId) = true).
    { cbn. by apply negb_true_iff, String.eqb_neq. }
    rewrite Htruthy. cbn [default].
    eexists. split.
    + f_equal. apply getDashboardData_unknown. exact Hout.
    + reflexivity.
  - by rewrite updateModes_sendDashboardUpdate, getDashboardData_tag.
Qed.

Lemma refresh_route_unchecked_witness :
  exists data,
    (getRefresh (Some "bogus") (Samples.outage 1000) (Samples.outage 1000)
       Samples.allOpen Samples.twoClients).1.1 = DataOk (FullView data)
    /\ mode data = "bogus".
Proof.
  destruct (refresh_route_unchecked (Some "bogus") (Samples.outage 1000)
              (Samples.outage 1000) Samples.allOpen Samples.twoClients)
    as (_ & _ & Hunknown & _).
  apply Hunknown; [reflexivity|discriminate|exact bogus_not_a_mode].
Defined.

(** X27: GET /api/dashboard/data is read-only for the scheduler and the
    connections, whatever it is asked; for one of the five names it answers
    200 with data tagged by that name, and without a name with data tagged
    [personal]. *)
Theorem data_route_read_only (queryMode : jsval) (src : Aggregators.sources)
        (p : process) :
  let r := getData queryMode src p in
  sched r.2 = sched p
  /\ wsHandler r.2 = wsHandler p
  /\ (forall m, queryMode = JStr m -> m ∈ getAvailableModes ->
                exists d, r.1 = DataOk d /\ out_mode d = m)
  /\ (truthy queryMode = false ->
      exists d, r.1 = DataOk d /\ out_mode d = "personal").
Proof.
  cbn zeta. split; [|split; [|split]].
  - unfold getData.
    destruct (negb _); [done|]. by destruct (if truthy queryMode then _ else _).
  - unfold getData.
    destruct (negb _); [done|]. by destruct (if truthy queryMode then _ else _).
  - intros m -> Hin. unfold getData.
    assert (Htruthy : truthy (JStr m) = true).
    { destruct (valid_mode_cases m Hin) as [-> | [-> | [-> | [-> | ->]]]]; reflexivity. }
    assert (Hvalid : isValidMode (JStr m) = true).
    { apply isValidMode_iff. by exists m. }
    rewrite Htruthy, Hvalid. cbn [negb fst].
    eexists. split; [reflexivity|]. apply getDashboardData_tag.
  - intros Hfalsy. rewrite getData_default by done.
    eexists. split; [reflexivity|]. reflexivity.
Qed.

Lemma data_route_read_only_witness :
  exists d, (getData (JStr "weather") (Samples.outage 1000) Samples.twoClients).1
            = DataOk d /\ out_mode d = "weather".
Proof.
  destruct (data_route_read_only (JStr "weather") (Samples.outage 1000)
              Samples.twoClients) as (_ & _ & Hvalid & _).
  apply (Hvalid "weather"); [reflexivity|].
  unfold getAvailableModes.
  do 3 apply list_elem_of_further. apply list_elem_of_here.
Defined.

(** X28: after an accepted mode change the scheduler's cycles and the
    refresh route follow the new mode, but the data route does not: asked
    without a name it still answers with [personal] data. *)
Theorem mode_change_followers (m : string)
        (s1 s2 s3 s4 : Aggregators.sources) (readyState : nat -> nat)
        (p : process) :
  m ∈ getAvailableModes ->
  let p' := (postMode (JStr m) s1 s2 readyState p).1.2 in
  updateModes (Scheduler.refreshDashboardData s3 readyState p').2 = [m]
  /\ (exists d, (getRefresh None s3 s4 readyState p').1.1 = DataOk d
                /\ out_mode d = m)
  /\ (exists d, (getData JUndefined s3 p').1 = DataOk d
                /\ out_mode d = "personal").
Proof.
  intros Hin p'.
  assert (Hmode : Scheduler.getMode p' = m).
  { subst p'. by destruct (postMode_valid m s1 s2 readyState p Hin) as (_ & Hm & _). }
  split; [|split].
  - by rewrite refresh_modes, Hmode.
  - destruct (getRefresh_default s3 s4 readyState p') as (d & Hd & Htag).
    exists d. split; [exact Hd|]. by rewrite Htag.
  - rewrite getData_default by reflexivity.
    eexists. split; [reflexivity|]. reflexivity.
Qed.

Lemma mode_change_followers_witness :
  let p' := (postMode (JStr "guest") (Samples.outage 1) (Samples.outage 2)
               Samples.allOpen Samples.twoClients).1.2 in
  updateModes (Scheduler.refreshDashboardData (Samples.outage 3)
                 Samples.allOpen p').2 = ["guest"].
Proof.
  refine (proj1 (mode_change_followers "guest" (Samples.outage 1) (Samples.outage 2)
                   (Samples.outage 3) (Samples.outage 3) Samples.allOpen
                   Samples.twoClients _)).
  unfold getAvailableModes. apply list_elem_of_further, list_elem_of_here.
Defined.

End Cycle.
